(** * AXI SPI Engine offload PWM trigger

    A shallow embedding of
    [drivers/iio/trigger/axi-spi-engine-offload-pwm-trigger.c] and of its
    header.  The driver's own functions are transcribed statement by
    statement over an explicit kernel state; the kernel services the driver
    calls (firmware nodes, the platform bus, the IIO trigger list, managed
    device actions, the PWM core) live outside the driver and are modelled as
    small primitives whose outcome, where the driver tests it, is decided by
    an environment record. *)

From stdpp Require Import base numbers option list gmap strings pretty.
From Stdlib Require Import ZArith Lia Ascii String.

Local Open Scope Z_scope.

(** ** Machine integers *)

Module Int.

(** [u32], [u64]: the value of a C conversion to an unsigned type of that
    width. *)
Definition u32 (x : Z) : Z := x mod 2 ^ 32.
Definition u64 (x : Z) : Z := x mod 2 ^ 64.

(** [int]: conversion to a 32-bit signed integer (two's complement). *)
Definition int (x : Z) : Z := (x + 2 ^ 31) mod 2 ^ 32 - 2 ^ 31.

Definition is_u32 (x : Z) : Prop := 0 <= x < 2 ^ 32.
Definition is_u64 (x : Z) : Prop := 0 <= x < 2 ^ 64.

End Int.

(** ** Constants and arithmetic macros of the kernel headers *)

(** Modelled from the spec: the error taxonomy of section 7.  TypeMismatch
    and InvalidArgument are [-EINVAL], Deferred is [-EPROBE_DEFER],
    ResourceUnavailable is [-ENOMEM]; a number out of range is [-ERANGE].
    The errno headers are not part of the driver; the numbers are the
    kernel's. *)
Definition ENOMEM : Z := 12.
Definition EINVAL : Z := 22.
Definition ERANGE : Z := 34.
Definition EPROBE_DEFER : Z := 517.

(** Modelled from the spec: "hardware-triggered buffered streaming" is the
    pair of mode bits the driver sets; iio.h is not part of the driver, the
    bit positions are the kernel's. *)
Definition INDIO_BUFFER_HARDWARE : Z := 0x08.
Definition INDIO_HARDWARE_TRIGGERED : Z := 0x20.

(** Modelled from the spec: [1e9], the number of nanoseconds in a second. *)
Definition NSEC_PER_SEC : Z := 1000000000.

(** Modelled from the spec: [ceil(n / d)].  The macro of the kernel's math
    header adds [d - 1] before an integer division. *)
Definition DIV_ROUND_UP (n d : Z) : Z := (n + d - 1) / d.

(** Modelled from the spec: [round(x / d)] on unsigned 64-bit numbers.  The
    macro of the kernel's math header adds half the divisor before an
    integer division, so a tie rounds up. *)
Definition DIV_ROUND_CLOSEST_ULL (x d : Z) : Z := Int.u64 (x + d / 2) / d.

(** ** The rate attribute's text format *)

Module Kstrtox.

Definition is_digit (c : ascii) : bool :=
  (48 <=? Z.of_nat (nat_of_ascii c)) && (Z.of_nat (nat_of_ascii c) <=? 57).

Definition digit_val (c : ascii) : Z := Z.of_nat (nat_of_ascii c) - 48.

Definition newline : ascii := ascii_of_nat 10.

(** The digit loop: consumes the longest prefix of decimal digits and
    returns the accumulated value, the number of characters consumed and
    what is left. *)
Fixpoint parse_integer (s : string) (acc : Z) (n : nat) : Z * nat * string :=
  match s with
  | String c s' =>
      if is_digit c then parse_integer s' (acc * 10 + digit_val c) (S n)
      else (acc, n, s)
  | EmptyString => (acc, n, s)
  end.

Definition skip_plus (s : string) : string :=
  match s with
  | String "+"%char s' => s'
  | _ => s
  end.

Definition skip_newline (s : string) : string :=
  match s with
  | String c s' => if Ascii.eqb c newline then s' else s
  | EmptyString => s
  end.

(** Modelled from the spec: the rate attribute is a "text-encoded unsigned
    integer, newline-terminated"; a write of a non-numeric value fails.
    [kstrtou32] (base 10) belongs to the kernel's string library, not to
    the driver: an optional [+], at least one digit, an optional final
    newline and nothing else; [-ERANGE] when the number does not fit,
    [-EINVAL] for any other malformed text.  [inl e] is the error return,
    [inr v] a return of [0] with [v] stored through the result pointer. *)
Definition kstrtoull (s : string) : Z + Z :=
  let '(v, n, rest) := parse_integer (skip_plus s) 0 0 in
  if 2 ^ 64 <=? v then inl (- ERANGE)
  else if Nat.eqb n 0 then inl (- EINVAL)
  else match skip_newline rest with
       | EmptyString => inr v
       | String _ _ => inl (- EINVAL)
       end.

(** Modelled from the spec: the attribute holds an unsigned 32-bit number;
    [kstrtou32] is [kstrtoull] followed by a range check. *)
Definition kstrtou32 (s : string) : Z + Z :=
  match kstrtoull s with
  | inl e => inl e
  | inr tmp => if Z.eqb tmp (Int.u32 tmp) then inr tmp else inl (- ERANGE)
  end.

(** What "a numeric payload" means, stated on the text rather than on the
    parser: after an optional leading [+] and without one optional final
    newline, a non-empty run of decimal digits. *)
Fixpoint all_digits (s : string) : bool :=
  match s with
  | EmptyString => true
  | String c s' => is_digit c && all_digits s'
  end.

Fixpoint drop_final_newline (s : string) : string :=
  match s with
  | EmptyString => EmptyString
  | String c EmptyString => if Ascii.eqb c newline then EmptyString else s
  | String c s' => String c (drop_final_newline s')
  end.

Definition numeric (s : string) : bool :=
  match drop_final_newline (skip_plus s) with
  | EmptyString => false
  | core => all_digits core
  end.

End Kstrtox.

(** ** Kernel objects

    A pointer is the identity of the object it points to: a number.  The
    objects the driver dereferences live in stores of the kernel state
    below, so two handles to one trigger see the same reference count. *)

Abbreviation device := nat (only parsing).
Abbreviation fwnode_handle := nat (only parsing).
Abbreviation trigger_ptr := nat (only parsing).
Abbreviation buffer_ptr := nat (only parsing).
Abbreviation pwm_ptr := nat (only parsing).
Abbreviation iio_dev_ptr := nat (only parsing).

(** A pointer result as the kernel encodes it: an errno folded into the
    pointer ([IS_ERR]), the null pointer, or a valid pointer. *)
Inductive ptr (A : Type) : Type :=
| ERR_PTR (e : Z)
| NULL
| PTR (a : A).
Arguments ERR_PTR {A} e.
Arguments NULL {A}.
Arguments PTR {A} a.

Definition IS_ERR {A} (p : ptr A) : bool :=
  match p with ERR_PTR _ => true | _ => false end.

(** The result of a service that returns either a valid pointer or an
    errno folded into the pointer, never the null pointer; [PTR_ERR] of
    [Err e] is the negative number [- e]. *)
Inductive err_or (A : Type) : Type :=
| Err (errno : positive)
| Ok (a : A).
Arguments Err {A} errno.
Arguments Ok {A} a.

(** The address a trigger's [ops] field holds.  The driver compares it with
    the address of its own table and never looks inside a foreign one. *)
Inductive ops_ptr : Type :=
| ops_null
| ops_axi_offload_pwm_trigger
| foreign_ops (id : nat).

#[global] Instance ops_ptr_eq_dec : EqDecision ops_ptr.
Proof. solve_decision. Defined.

(** [struct axi_offload_pwm_trigger]. *)
Record axi_offload_pwm_trigger : Type := {
  st_buffer : buffer_ptr;
  st_pwm : pwm_ptr;
}.

(** What the untyped driver-data pointer of a trigger points to. *)
Inductive drvdata : Type :=
| drvdata_null
| drvdata_axi (st : axi_offload_pwm_trigger)
| drvdata_foreign (id : nat).

(** The fields of [struct iio_trigger] the driver touches; [trig_refs] is
    the reference count of the embedded device. *)
Record iio_trigger : Type := {
  trig_ops : ops_ptr;
  trig_parent : option device;
  trig_drvdata : drvdata;
  trig_refs : nat;
}.

(** The state of a PWM device as [pwm_get_state] reports it. *)
Record pwm_device : Type := {
  pwm_period : Z;
  pwm_duty_cycle : Z;
  pwm_enabled : bool;
}.

(** The fields of [struct iio_dev] the driver touches. *)
Record iio_dev : Type := {
  indio_modes : Z;
  indio_trig : option trigger_ptr;
  indio_buffers : list buffer_ptr;
}.

(** A managed action: a callback of this driver (or of the IIO core) and
    the datum it is called with. *)
Inductive action_fn : Type :=
| fn_offload_pwm_trigger_release
| fn_offload_pwm_trigger_pwm_disable
| fn_iio_trigger_unregister.

Record action : Type := Action { act_fn : action_fn; act_data : nat }.

#[global] Instance action_fn_eq_dec : EqDecision action_fn.
Proof. solve_decision. Defined.
#[global] Instance action_eq_dec : EqDecision action.
Proof. solve_decision. Defined.

(** Every call that leaves the driver, in the order it is made. *)
Inductive call : Type :=
| call_device_property_present (dev : device) (name : string)
| call_fwnode_find_reference (fw : fwnode_handle) (name : string) (index : nat)
| call_bus_find_device_by_fwnode (fw : fwnode_handle)
| call_iio_trigger_acquire_by_parent (dev : device)
| call_devm_add_action (dev : device) (a : action)
| call_iio_trigger_get (t : trigger_ptr)
| call_iio_trigger_put (t : trigger_ptr)
| call_iio_device_attach_buffer (indio_dev : iio_dev_ptr) (b : buffer_ptr)
| call_pwm_config (pwm : pwm_ptr) (duty_ns period_ns : Z)
| call_pwm_enable (pwm : pwm_ptr)
| call_pwm_disable (pwm : pwm_ptr)
| call_devm_pwm_get (dev : device)
| call_devm_iio_dmaengine_buffer_alloc (dev : device) (channel : string)
| call_devm_iio_trigger_alloc (dev : device)
| call_devm_iio_trigger_register (dev : device) (t : trigger_ptr).

#[global] Instance call_eq_dec : EqDecision call.
Proof. solve_decision. Defined.

(** The kernel state. *)
Record world : Type := World {
  triggers : list iio_trigger;
  iio_trigger_list : list trigger_ptr;
  pwms : gmap nat pwm_device;
  iio_devs : gmap nat iio_dev;
  devres : gmap nat (list action);
  calls : list call;
}.

Definition set_triggers (f : list iio_trigger -> list iio_trigger) (w : world) : world :=
  World (f (triggers w)) (iio_trigger_list w) (pwms w) (iio_devs w) (devres w) (calls w).
Definition set_iio_trigger_list (f : list trigger_ptr -> list trigger_ptr) (w : world) : world :=
  World (triggers w) (f (iio_trigger_list w)) (pwms w) (iio_devs w) (devres w) (calls w).
Definition set_pwms (f : gmap nat pwm_device -> gmap nat pwm_device) (w : world) : world :=
  World (triggers w) (iio_trigger_list w) (f (pwms w)) (iio_devs w) (devres w) (calls w).
Definition set_iio_devs (f : gmap nat iio_dev -> gmap nat iio_dev) (w : world) : world :=
  World (triggers w) (iio_trigger_list w) (pwms w) (f (iio_devs w)) (devres w) (calls w).
Definition set_devres (f : gmap nat (list action) -> gmap nat (list action)) (w : world) : world :=
  World (triggers w) (iio_trigger_list w) (pwms w) (iio_devs w) (f (devres w)) (calls w).
Definition log (c : call) (w : world) : world :=
  World (triggers w) (iio_trigger_list w) (pwms w) (iio_devs w) (devres w) (calls w ++ [c]).

(** The managed actions of a device, most recently added first. *)
Definition devres_of (w : world) (dev : device) : list action :=
  default [] (devres w !! dev).

Definition trigger_refs (w : world) (t : trigger_ptr) : option nat :=
  trig_refs <$> triggers w !! t.

(** What the kernel outside the driver decides: the firmware description,
    the devices present on the platform bus, and the status of every
    service that can fail ([0] or a negative errno). *)
Record kernel_env : Type := {
  property_present : device -> string -> bool;
  fwnode_of : device -> fwnode_handle;
  reference_target : fwnode_handle -> string -> nat -> err_or fwnode_handle;
  platform_device_of : fwnode_handle -> ptr device;
  add_action_status : device -> action -> Z;
  attach_buffer_status : iio_dev_ptr -> buffer_ptr -> Z;
  pwm_apply_status : pwm_ptr -> Z -> Z -> Z;
  pwm_enable_status : pwm_ptr -> Z;
  kzalloc_ok : device -> bool;
  pwm_of : device -> err_or pwm_ptr;
  dma_buffer_of : device -> string -> err_or buffer_ptr;
  trigger_alloc_ok : device -> bool;
  trigger_register_status : device -> trigger_ptr -> Z;
}.

(** ** Kernel code as state transformers

    A computation takes the kernel state and returns a value and the next
    state, or [None] where the C code would dereference a pointer to no
    object. *)
Definition K (A : Type) : Type := world -> option (A * world).

Definition ret {A} (a : A) : K A := fun w => Some (a, w).
Definition bind {A B} (m : K A) (f : A -> K B) : K B :=
  fun w => match m w with
           | Some (a, w') => f a w'
           | None => None
           end.
Definition fault {A} : K A := fun _ => None.
Definition gets {A} (f : world -> A) : K A := fun w => Some (f w, w).
Definition modify (f : world -> world) : K unit := fun w => Some (tt, f w).
Definition deref {A} (o : world -> option A) : K A :=
  fun w => match o w with
           | Some a => Some (a, w)
           | None => None
           end.

Declare Scope kernel_scope.
Delimit Scope kernel_scope with K.
Notation "x <- m ;; k" := (bind m (fun x => k))
  (at level 100, m at next level, right associativity) : kernel_scope.
Notation "m ;; k" := (bind m (fun _ => k))
  (at level 100, right associativity) : kernel_scope.
Local Open Scope kernel_scope.

Section Driver.

Context (env : kernel_env).

(** *** Kernel services the driver calls *)

(** Modelled from the spec: whether "the consumer device's configuration"
    has the named property; the firmware-property API is kernel code
    outside the driver. *)
Definition device_property_present (dev : device) (name : string) : K bool :=
  modify (log (call_device_property_present dev name));;
  ret (property_present env dev name).

Definition dev_fwnode (dev : device) : fwnode_handle := fwnode_of env dev.

(** Modelled from the spec: the Reference Resolver,
    [find_referenced_device(consumer, property, index)]; a failure is a
    hard error carried in the pointer. *)
Definition fwnode_find_reference (fw : fwnode_handle) (name : string) (index : nat)
  : K (err_or fwnode_handle) :=
  modify (log (call_fwnode_find_reference fw name index));;
  ret (reference_target env fw name index).

(** Modelled from the spec: "look up the owning provider device on the
    bus"; the null pointer when no device has probed for the node. *)
Definition bus_find_device_by_fwnode (fw : fwnode_handle) : K (ptr device) :=
  modify (log (call_bus_find_device_by_fwnode fw));;
  ret (platform_device_of env fw).

Definition update_trigger (t : trigger_ptr) (f : iio_trigger -> iio_trigger) : K unit :=
  tr <- deref (fun w => triggers w !! t);;
  modify (set_triggers (<[t := f tr]>)).

Definition with_refs (f : nat -> nat) (tr : iio_trigger) : iio_trigger :=
  {| trig_ops := trig_ops tr; trig_parent := trig_parent tr;
     trig_drvdata := trig_drvdata tr; trig_refs := f (trig_refs tr) |}.

(** Modelled from the spec: a trigger handle is reference-counted, and
    assigning it as a consumer's active trigger "increments the trigger's
    external reference count".  [iio_trigger_get] takes a reference and
    returns its argument. *)
Definition iio_trigger_get (t : trigger_ptr) : K trigger_ptr :=
  modify (log (call_iio_trigger_get t));;
  update_trigger t (with_refs S);;
  ret t.

(** Modelled from the spec: the release that decrements the trigger's
    reference count. *)
Definition iio_trigger_put (t : trigger_ptr) : K unit :=
  modify (log (call_iio_trigger_put t));;
  update_trigger t (with_refs Nat.pred).

(** The first registered trigger whose parent device is [parent]. *)
Fixpoint find_by_parent (ts : list iio_trigger) (l : list trigger_ptr) (parent : device)
  : option trigger_ptr :=
  match l with
  | [] => None
  | t :: l' =>
      match ts !! t with
      | Some tr =>
          if decide (trig_parent tr = Some parent) then Some t
          else find_by_parent ts l' parent
      | None => find_by_parent ts l' parent
      end
  end.

(** Modelled from the spec: the Trigger Registry,
    [acquire_by_owner(device) -> Trigger | None]; the handle it returns is
    reference-counted, so a hit takes a reference. *)
Definition iio_trigger_acquire_by_parent (parent : device) : K (option trigger_ptr) :=
  modify (log (call_iio_trigger_acquire_by_parent parent));;
  found <- gets (fun w => find_by_parent (triggers w) (iio_trigger_list w) parent);;
  match found with
  | None => ret None
  | Some t => update_trigger t (with_refs S);; ret (Some t)
  end.

(** Modelled from the spec: the Pulse Source Adapter, [configure(duty,
    period)], [get_period()], [enable()], [disable()].  The adapter
    records the last configuration it accepted; whether it accepts one is
    the PWM chip's decision. *)
Definition pwm_config (pwm : pwm_ptr) (duty_ns period_ns : Z) : K Z :=
  modify (log (call_pwm_config pwm duty_ns period_ns));;
  p <- deref (fun w => pwms w !! pwm);;
  let status := pwm_apply_status env pwm duty_ns period_ns in
  if status =? 0 then
    modify (set_pwms (<[pwm := {| pwm_period := Int.u64 period_ns;
                                  pwm_duty_cycle := Int.u64 duty_ns;
                                  pwm_enabled := pwm_enabled p |}]>));;
    ret 0
  else ret status.

(** Modelled from the spec: [get_period()] of the Pulse Source Adapter. *)
Definition pwm_get_period (pwm : pwm_ptr) : K Z :=
  deref (fun w => pwm_period <$> pwms w !! pwm).

Definition set_enabled (b : bool) (p : pwm_device) : pwm_device :=
  {| pwm_period := pwm_period p; pwm_duty_cycle := pwm_duty_cycle p; pwm_enabled := b |}.

(** Modelled from the spec: [enable()] of the Pulse Source Adapter; the
    status is the PWM chip's. *)
Definition pwm_enable (pwm : pwm_ptr) : K Z :=
  modify (log (call_pwm_enable pwm));;
  p <- deref (fun w => pwms w !! pwm);;
  let status := pwm_enable_status env pwm in
  if status =? 0 then modify (set_pwms (<[pwm := set_enabled true p]>));; ret 0
  else ret status.

(** Modelled from the spec: [disable()] of the Pulse Source Adapter. *)
Definition pwm_disable (pwm : pwm_ptr) : K unit :=
  modify (log (call_pwm_disable pwm));;
  p <- deref (fun w => pwms w !! pwm);;
  modify (set_pwms (<[pwm := set_enabled false p]>)).

(** Modelled from the spec: the registry's "deregister on provider
    teardown". *)
Definition iio_trigger_unregister (t : trigger_ptr) : K unit :=
  modify (set_iio_trigger_list (filter (fun t' => t' <> t))).

(** *** The driver's release callbacks *)

Definition axi_spi_engine_offload_pwm_trigger_release (data : nat) : K unit :=
  let trig := data in
  iio_trigger_put trig.

Definition axi_offload_pwm_trigger_pwm_disable (data : nat) : K unit :=
  let pwm := data in
  pwm_disable pwm.

Definition run_action (a : action) : K unit :=
  match act_fn a with
  | fn_offload_pwm_trigger_release => axi_spi_engine_offload_pwm_trigger_release (act_data a)
  | fn_offload_pwm_trigger_pwm_disable => axi_offload_pwm_trigger_pwm_disable (act_data a)
  | fn_iio_trigger_unregister => iio_trigger_unregister (act_data a)
  end.

Fixpoint run_actions (l : list action) : K unit :=
  match l with
  | [] => ret tt
  | a :: l' => run_action a;; run_actions l'
  end.

(** Modelled from the spec: "a release action tied to the consumer's own
    lifecycle", a "defer-style action list executed in reverse acquisition
    order".  [devm_add_action_or_reset] either adds the action to the
    device's list or, when it cannot, runs it at once and returns the
    error; [devres_release_all] is the device's teardown. *)
Definition devm_add_action_or_reset (dev : device) (a : action) : K Z :=
  modify (log (call_devm_add_action dev a));;
  let status := add_action_status env dev a in
  if status =? 0 then
    modify (fun w => set_devres (<[dev := a :: devres_of w dev]>) w);;
    ret 0
  else
    run_action a;;
    ret status.

(** Modelled from the spec: a device's teardown runs its release actions
    "in reverse acquisition order", each once. *)
Definition devres_release_all (dev : device) : K unit :=
  l <- gets (fun w => devres_of w dev);;
  modify (set_devres (delete dev));;
  run_actions l.

(** Modelled from the spec: "attach the trigger's owned buffer to the
    consumer device for streaming I/O".  The status is the IIO core's; on
    success the buffer joins the device's attached buffers. *)
Definition iio_device_attach_buffer (indio_dev : iio_dev_ptr) (b : buffer_ptr) : K Z :=
  modify (log (call_iio_device_attach_buffer indio_dev b));;
  d <- deref (fun w => iio_devs w !! indio_dev);;
  let status := attach_buffer_status env indio_dev b in
  if status =? 0 then
    modify (set_iio_devs (<[indio_dev := {| indio_modes := indio_modes d;
                                            indio_trig := indio_trig d;
                                            indio_buffers := indio_buffers d ++ [b] |}]>));;
    ret 0
  else ret status.

(** Modelled from the spec: the implementation-specific internal state a
    trigger carries; the accessor is an inline of the IIO headers. *)
Definition iio_trigger_get_drvdata (trig : trigger_ptr) : K drvdata :=
  deref (fun w => trig_drvdata <$> triggers w !! trig).

(** Reading a field through [st]: the driver data must be this driver's
    structure. *)
Definition st_field {A} (f : axi_offload_pwm_trigger -> A) (st : drvdata) : K A :=
  match st with
  | drvdata_axi s => ret (f s)
  | _ => fault
  end.

(** *** Discovery *)

Definition devm_axi_spi_engine_offload_pwm_trigger_get_optional (dev : device)
  : K (ptr trigger_ptr) :=
  present <- device_property_present dev "adi,offloads"%string;;
  if negb present then ret NULL
  else
    offload <- fwnode_find_reference (dev_fwnode dev) "adi,offloads"%string 0;;
    match offload with
    | Err e => ret (ERR_PTR (Z.neg e))
    | Ok offload =>
        offload_dev <- bus_find_device_by_fwnode offload;;
        match offload_dev with
        | ERR_PTR e => ret (ERR_PTR e)
        | NULL => ret (ERR_PTR (- EPROBE_DEFER))
        | PTR offload_dev =>
            trig <- iio_trigger_acquire_by_parent offload_dev;;
            match trig with
            | None => ret (ERR_PTR (- EPROBE_DEFER))
            | Some trig =>
                r <- devm_add_action_or_reset dev
                       (Action fn_offload_pwm_trigger_release trig);;
                if negb (r =? 0) then ret (ERR_PTR r)
                else
                  ops <- deref (fun w => trig_ops <$> triggers w !! trig);;
                  if decide (ops <> ops_axi_offload_pwm_trigger)
                  then ret (ERR_PTR (- EINVAL))
                  else ret (PTR trig)
            end
        end
    end.

(** *** Attachment *)

Definition update_iio_dev (indio_dev : iio_dev_ptr) (f : iio_dev -> iio_dev) : K unit :=
  d <- deref (fun w => iio_devs w !! indio_dev);;
  modify (set_iio_devs (<[indio_dev := f d]>)).

Definition axi_spi_engine_offload_pwm_trigger_setup
    (indio_dev : iio_dev_ptr) (trig : trigger_ptr) : K Z :=
  st <- iio_trigger_get_drvdata trig;;
  ops <- deref (fun w => trig_ops <$> triggers w !! trig);;
  if decide (ops <> ops_axi_offload_pwm_trigger) then ret (- EINVAL)
  else
    update_iio_dev indio_dev (fun d =>
      {| indio_modes :=
           Z.lor (indio_modes d) (Z.lor INDIO_BUFFER_HARDWARE INDIO_HARDWARE_TRIGGERED);
         indio_trig := indio_trig d;
         indio_buffers := indio_buffers d |});;
    t <- iio_trigger_get trig;;
    update_iio_dev indio_dev (fun d =>
      {| indio_modes := indio_modes d;
         indio_trig := Some t;
         indio_buffers := indio_buffers d |});;
    buffer <- st_field st_buffer st;;
    iio_device_attach_buffer indio_dev buffer.

(** *** Trigger operations *)

Definition axi_offload_pwm_trigger_set_state (trig : trigger_ptr) (state : bool) : K Z :=
  st <- iio_trigger_get_drvdata trig;;
  if state then
    pwm <- st_field st_pwm st;;
    pwm_enable pwm
  else
    pwm <- st_field st_pwm st;;
    pwm_disable pwm;;
    ret 0.

Definition axi_offload_pwm_trigger_validate_device
    (trig : trigger_ptr) (indio_dev : iio_dev_ptr) : K Z :=
  ret (- EINVAL).

(** [struct iio_trigger_ops]: the callbacks the IIO core reaches a trigger
    through. *)
Record iio_trigger_ops : Type := {
  set_trigger_state : trigger_ptr -> bool -> K Z;
  validate_device : trigger_ptr -> iio_dev_ptr -> K Z;
}.

Definition axi_offload_pwm_trigger_ops : iio_trigger_ops :=
  {| set_trigger_state := axi_offload_pwm_trigger_set_state;
     validate_device := axi_offload_pwm_trigger_validate_device |}.

(** Modelled from the spec: the generic "choose any trigger" interface
    runs the trigger's [validate_device] check and assigns the trigger to
    the device only when the check passes. *)
Definition generic_trigger_assign
    (ops : iio_trigger_ops) (indio_dev : iio_dev_ptr) (trig : trigger_ptr) : K Z :=
  r <- validate_device ops trig indio_dev;;
  if negb (r =? 0) then ret r
  else
    update_iio_dev indio_dev (fun d =>
      {| indio_modes := indio_modes d;
         indio_trig := Some trig;
         indio_buffers := indio_buffers d |});;
    ret 0.

(** *** Rate control *)

Definition axi_spi_engine_offload_pwm_trigger_get_rate (trig : trigger_ptr) : K Z :=
  st <- iio_trigger_get_drvdata trig;;
  pwm <- st_field st_pwm st;;
  p <- pwm_get_period pwm;;
  let period_ns := Int.u64 p in
  if negb (period_ns =? 0)
  then ret (Int.u32 (DIV_ROUND_CLOSEST_ULL NSEC_PER_SEC period_ns))
  else ret 0.

Definition axi_spi_engine_offload_set_samp_freq (st : drvdata) (requested_hz : Z) : K Z :=
  if requested_hz =? 0 then ret (- EINVAL)
  else
    let period_ns := Int.int (DIV_ROUND_UP NSEC_PER_SEC requested_hz) in
    pwm <- st_field st_pwm st;;
    pwm_config pwm 10 period_ns.

(** [sysfs_emit (buf, "%u\n", rate)]: the text written and its length. *)
Definition sampling_frequency_show (trig : trigger_ptr) : K (Z * string) :=
  rate <- axi_spi_engine_offload_pwm_trigger_get_rate trig;;
  let text := (pretty rate ++ String Kstrtox.newline EmptyString)%string in
  ret (Z.of_nat (String.length text), text).

Definition sampling_frequency_store (trig : trigger_ptr) (buf : string) (len : Z) : K Z :=
  st <- iio_trigger_get_drvdata trig;;
  match Kstrtox.kstrtou32 buf with
  | inl e => ret e
  | inr val =>
      r <- axi_spi_engine_offload_set_samp_freq st val;;
      if negb (r =? 0) then ret r
      else ret len
  end.

(** *** Provider initialisation *)

(** Modelled from the spec: binding the provider's Pulse Source Adapter
    (state [PulseSourceBound]), or [ResourceUnavailable]. *)
Definition devm_pwm_get (dev : device) : K (err_or pwm_ptr) :=
  modify (log (call_devm_pwm_get dev));;
  ret (pwm_of env dev).

(** Modelled from the spec: the Streaming Buffer Allocator,
    [allocate(name) -> Buffer]. *)
Definition devm_iio_dmaengine_buffer_alloc (dev : device) (channel : string)
  : K (err_or buffer_ptr) :=
  modify (log (call_devm_iio_dmaengine_buffer_alloc dev channel));;
  ret (dma_buffer_of env dev channel).

(** Modelled from the spec: a TriggerInstance is "created during
    provider-device initialization".  The allocator returns a fresh, zeroed
    trigger holding one reference, or no trigger when memory is short. *)
Definition devm_iio_trigger_alloc (dev : device) : K (option trigger_ptr) :=
  modify (log (call_devm_iio_trigger_alloc dev));;
  if trigger_alloc_ok env dev then
    t <- gets (fun w => List.length (triggers w));;
    modify (set_triggers (fun ts => ts ++ [{| trig_ops := ops_null; trig_parent := None;
                                              trig_drvdata := drvdata_null;
                                              trig_refs := 1%nat |}]));;
    ret (Some t)
  else ret None.

(** Modelled from the spec: the Trigger Registry, [register(trigger)];
    the entry leaves the registry again when the provider is torn down. *)
Definition devm_iio_trigger_register (dev : device) (t : trigger_ptr) : K Z :=
  modify (log (call_devm_iio_trigger_register dev t));;
  let status := trigger_register_status env dev t in
  if status =? 0 then
    modify (set_iio_trigger_list (fun l => l ++ [t]));;
    modify (fun w => set_devres (<[dev := Action fn_iio_trigger_unregister t
                                            :: devres_of w dev]>) w);;
    ret 0
  else ret status.

(** Modelled from the spec: errors during provider initialisation are
    propagated; [dev_err_probe] logs a message and returns the error it is
    given. *)
Definition dev_err_probe (err : Z) : Z := err.

Definition axi_offload_pwm_trigger_probe (pdev : device) : K Z :=
  if negb (kzalloc_ok env pdev) then ret (- ENOMEM)
  else
    pwm <- devm_pwm_get pdev;;
    match pwm with
    | Err e => ret (dev_err_probe (Z.neg e))
    | Ok pwm =>
        buffer <- devm_iio_dmaengine_buffer_alloc pdev "rx"%string;;
        match buffer with
        | Err e => ret (dev_err_probe (Z.neg e))
        | Ok buffer =>
            let st := {| st_buffer := buffer; st_pwm := pwm |} in
            trig <- devm_iio_trigger_alloc pdev;;
            match trig with
            | None => ret (- ENOMEM)
            | Some trig =>
                update_trigger trig (fun tr =>
                  {| trig_ops := ops_axi_offload_pwm_trigger;
                     trig_parent := Some pdev;
                     trig_drvdata := drvdata_axi st;
                     trig_refs := trig_refs tr |});;
                r <- axi_spi_engine_offload_set_samp_freq (drvdata_axi st) 1000;;
                if negb (r =? 0) then ret (dev_err_probe r)
                else
                  r <- pwm_enable (st_pwm st);;
                  if negb (r =? 0) then ret (dev_err_probe r)
                  else
                    r <- devm_add_action_or_reset pdev
                           (Action fn_offload_pwm_trigger_pwm_disable (st_pwm st));;
                    if negb (r =? 0) then ret r
                    else devm_iio_trigger_register pdev trig
            end
        end
    end.

End Driver.


(** ** Concrete scenarios

    A consumer (device 9) whose firmware node refers to the provider
    (device 3, firmware node 7); PWM 0 and DMA buffer 5 belong to the
    provider. *)
Module Scenario.

Definition env_ok : kernel_env :=
  {| property_present := fun _ _ => true;
     fwnode_of := fun d => d;
     reference_target := fun _ _ _ => Ok 7%nat;
     platform_device_of := fun _ => PTR 3%nat;
     add_action_status := fun _ _ => 0;
     attach_buffer_status := fun _ _ => 0;
     pwm_apply_status := fun _ _ _ => 0;
     pwm_enable_status := fun _ => 0;
     kzalloc_ok := fun _ => true;
     pwm_of := fun _ => Ok 0%nat;
     dma_buffer_of := fun _ _ => Ok 5%nat;
     trigger_alloc_ok := fun _ => true;
     trigger_register_status := fun _ _ => 0 |}.

(** The same kernel, short of memory for managed actions. *)
Definition env_no_memory : kernel_env :=
  {| property_present := property_present env_ok;
     fwnode_of := fwnode_of env_ok;
     reference_target := reference_target env_ok;
     platform_device_of := platform_device_of env_ok;
     add_action_status := fun _ _ => - ENOMEM;
     attach_buffer_status := attach_buffer_status env_ok;
     pwm_apply_status := pwm_apply_status env_ok;
     pwm_enable_status := pwm_enable_status env_ok;
     kzalloc_ok := kzalloc_ok env_ok;
     pwm_of := pwm_of env_ok;
     dma_buffer_of := dma_buffer_of env_ok;
     trigger_alloc_ok := trigger_alloc_ok env_ok;
     trigger_register_status := trigger_register_status env_ok |}.

(** The same kernel, in which the IIO core cannot attach a buffer. *)
Definition env_attach_fails : kernel_env :=
  {| property_present := property_present env_ok;
     fwnode_of := fwnode_of env_ok;
     reference_target := reference_target env_ok;
     platform_device_of := platform_device_of env_ok;
     add_action_status := add_action_status env_ok;
     attach_buffer_status := fun _ _ => - ENOMEM;
     pwm_apply_status := pwm_apply_status env_ok;
     pwm_enable_status := pwm_enable_status env_ok;
     kzalloc_ok := kzalloc_ok env_ok;
     pwm_of := pwm_of env_ok;
     dma_buffer_of := dma_buffer_of env_ok;
     trigger_alloc_ok := trigger_alloc_ok env_ok;
     trigger_register_status := trigger_register_status env_ok |}.

(** The same kernel for a consumer without the property. *)
Definition env_no_property : kernel_env :=
  {| property_present := fun _ _ => false;
     fwnode_of := fwnode_of env_ok;
     reference_target := reference_target env_ok;
     platform_device_of := platform_device_of env_ok;
     add_action_status := add_action_status env_ok;
     attach_buffer_status := attach_buffer_status env_ok;
     pwm_apply_status := pwm_apply_status env_ok;
     pwm_enable_status := pwm_enable_status env_ok;
     kzalloc_ok := kzalloc_ok env_ok;
     pwm_of := pwm_of env_ok;
     dma_buffer_of := dma_buffer_of env_ok;
     trigger_alloc_ok := trigger_alloc_ok env_ok;
     trigger_register_status := trigger_register_status env_ok |}.

Definition pwm_idle : pwm_device :=
  {| pwm_period := 0; pwm_duty_cycle := 0; pwm_enabled := false |}.

Definition consumer_idle : iio_dev :=
  {| indio_modes := 1; indio_trig := None; indio_buffers := [] |}.

(** Before the provider has probed. *)
Definition w_boot : world :=
  World [] [] {[ 0%nat := pwm_idle ]} {[ 9%nat := consumer_idle ]} ∅ [].

(** After the provider has probed: trigger 0 is registered and running at
    the default rate. *)
Definition w_probed : world :=
  World [ {| trig_ops := ops_axi_offload_pwm_trigger; trig_parent := Some 3%nat;
             trig_drvdata := drvdata_axi {| st_buffer := 5; st_pwm := 0 |};
             trig_refs := 1 |} ]
        [0%nat]
        {[ 0%nat := {| pwm_period := 1000000; pwm_duty_cycle := 10; pwm_enabled := true |} ]}
        {[ 9%nat := consumer_idle ]}
        {[ 3%nat := [Action fn_iio_trigger_unregister 0;
                     Action fn_offload_pwm_trigger_pwm_disable 0] ]}
        [].

(** Device 3 is some other driver's: the trigger it registered has that
    driver's operations and data. *)
Definition w_foreign : world :=
  World [ {| trig_ops := foreign_ops 1; trig_parent := Some 3%nat;
             trig_drvdata := drvdata_foreign 1; trig_refs := 1 |} ]
        [0%nat]
        ∅
        {[ 9%nat := consumer_idle ]}
        ∅
        [].

(** The state the provider's probe leaves behind when it starts from
    [w_boot]. *)
Definition w_after_probe : world :=
  match axi_offload_pwm_trigger_probe env_ok 3%nat w_boot with
  | Some (_, w) => w
  | None => w_boot
  end.

End Scenario.

(** ** The header's accessor *)

Section Header.

(** The [id] field of a device, an unsigned 32-bit number the platform code
    assigns. *)
Context (device_id : device -> Z).

(** [trig->dev.parent->id]. *)
Definition axi_spi_engine_offload_pwm_trigger_get_offload_id (trig : trigger_ptr) : K Z :=
  parent <- deref (fun w => trig_parent <$> triggers w !! trig);;
  match parent with
  | Some parent => ret (Int.u32 (device_id parent))
  | None => fault
  end.

End Header.

(** ** Kernels in which a service fails *)
Module Faults.

(** The "adi,offloads" reference of the consumer is malformed. *)
Definition env_malformed : kernel_env :=
  {| property_present := property_present Scenario.env_ok;
     fwnode_of := fwnode_of Scenario.env_ok;
     reference_target := fun _ _ _ => Err 22%positive;
     platform_device_of := platform_device_of Scenario.env_ok;
     add_action_status := add_action_status Scenario.env_ok;
     attach_buffer_status := attach_buffer_status Scenario.env_ok;
     pwm_apply_status := pwm_apply_status Scenario.env_ok;
     pwm_enable_status := pwm_enable_status Scenario.env_ok;
     kzalloc_ok := kzalloc_ok Scenario.env_ok;
     pwm_of := pwm_of Scenario.env_ok;
     dma_buffer_of := dma_buffer_of Scenario.env_ok;
     trigger_alloc_ok := trigger_alloc_ok Scenario.env_ok;
     trigger_register_status := trigger_register_status Scenario.env_ok |}.

(** A PWM chip that refuses a duty cycle longer than the period. *)
Definition env_pwm_checks : kernel_env :=
  {| property_present := property_present Scenario.env_ok;
     fwnode_of := fwnode_of Scenario.env_ok;
     reference_target := reference_target Scenario.env_ok;
     platform_device_of := platform_device_of Scenario.env_ok;
     add_action_status := add_action_status Scenario.env_ok;
     attach_buffer_status := attach_buffer_status Scenario.env_ok;
     pwm_apply_status := fun _ duty period => if period <? duty then - EINVAL else 0;
     pwm_enable_status := pwm_enable_status Scenario.env_ok;
     kzalloc_ok := kzalloc_ok Scenario.env_ok;
     pwm_of := pwm_of Scenario.env_ok;
     dma_buffer_of := dma_buffer_of Scenario.env_ok;
     trigger_alloc_ok := trigger_alloc_ok Scenario.env_ok;
     trigger_register_status := trigger_register_status Scenario.env_ok |}.

(** The trigger cannot be registered. *)
Definition env_register_fails : kernel_env :=
  {| property_present := property_present Scenario.env_ok;
     fwnode_of := fwnode_of Scenario.env_ok;
     reference_target := reference_target Scenario.env_ok;
     platform_device_of := platform_device_of Scenario.env_ok;
     add_action_status := add_action_status Scenario.env_ok;
     attach_buffer_status := attach_buffer_status Scenario.env_ok;
     pwm_apply_status := pwm_apply_status Scenario.env_ok;
     pwm_enable_status := pwm_enable_status Scenario.env_ok;
     kzalloc_ok := kzalloc_ok Scenario.env_ok;
     pwm_of := pwm_of Scenario.env_ok;
     dma_buffer_of := dma_buffer_of Scenario.env_ok;
     trigger_alloc_ok := trigger_alloc_ok Scenario.env_ok;
     trigger_register_status := fun _ _ => - ENOMEM |}.

(** The state a probe that could not register its trigger leaves behind
    when it starts from [Scenario.w_boot]. *)
Definition w_register_failed : world :=
  match axi_offload_pwm_trigger_probe env_register_fails 3%nat Scenario.w_boot with
  | Some (_, w) => w
  | None => Scenario.w_boot
  end.

End Faults.

(** * Properties *)

(** ** Reasoning about kernel computations *)

(** [kstep] runs the monad's plumbing, [wstep] the projections of an
    updated state; neither unfolds a map or list operation. *)
Ltac kstep :=
  unfold bind, ret, modify, deref, gets, fault; cbv beta iota zeta;
  cbn [fst snd negb Z.eqb Pos.eqb].

Ltac wstep :=
  unfold devres_of, trigger_refs;
  cbn [triggers iio_trigger_list pwms iio_devs devres calls
       log set_triggers set_iio_trigger_list set_pwms set_iio_devs set_devres
       trig_ops trig_parent trig_drvdata trig_refs with_refs
       pwm_period pwm_duty_cycle pwm_enabled set_enabled
       indio_modes indio_trig indio_buffers st_buffer st_pwm act_fn act_data
       fmap option_fmap option_map mbind option_bind default].

Ltac kwstep := repeat (progress (kstep; wstep)).

(** Two updates of one component agree when they agree on the current
    value of that component. *)
Lemma set_triggers_ext f g w :
  f (triggers w) = g (triggers w) -> set_triggers f w = set_triggers g w.
Proof. unfold set_triggers. intros ->. reflexivity. Qed.

Lemma set_devres_ext f g w :
  f (devres w) = g (devres w) -> set_devres f w = set_devres g w.
Proof. unfold set_devres. intros ->. reflexivity. Qed.

Lemma set_pwms_ext f g w :
  f (pwms w) = g (pwms w) -> set_pwms f w = set_pwms g w.
Proof. unfold set_pwms. intros ->. reflexivity. Qed.

Lemma set_iio_devs_ext f g w :
  f (iio_devs w) = g (iio_devs w) -> set_iio_devs f w = set_iio_devs g w.
Proof. unfold set_iio_devs. intros ->. reflexivity. Qed.

Lemma find_by_parent_Some ts l parent t :
  find_by_parent ts l parent = Some t ->
  exists tr, ts !! t = Some tr /\ trig_parent tr = Some parent.
Proof.
  induction l as [|t' l IH]; simpl; [discriminate|].
  destruct (ts !! t') as [tr|] eqn:Ht'; [|exact IH].
  destruct (decide (trig_parent tr = Some parent)) as [Hp|Hp]; [|exact IH].
  intros [= <-]. eauto.
Qed.

(** ** Discovery *)

(** C7. A consumer device without the "adi,offloads" property gets the null
    pointer, which is no error; the only call made is the property test
    itself: no reference is resolved, the bus is not searched, and the
    trigger list is not queried. *)
Theorem get_optional_property_absent env dev w :
  property_present env dev "adi,offloads" = false ->
  exists w',
    devm_axi_spi_engine_offload_pwm_trigger_get_optional env dev w = Some (NULL, w')
    /\ IS_ERR (@NULL trigger_ptr) = false
    /\ calls w' = calls w ++ [call_device_property_present dev "adi,offloads"]
    /\ triggers w' = triggers w
    /\ iio_trigger_list w' = iio_trigger_list w
    /\ devres w' = devres w.
Proof.
  intros Habsent.
  unfold devm_axi_spi_engine_offload_pwm_trigger_get_optional, device_property_present.
  kwstep. rewrite Habsent. kwstep.
  eexists. repeat split; reflexivity.
Qed.

Lemma get_optional_property_absent_witness :
  property_present Scenario.env_no_property 9%nat "adi,offloads" = false
  /\ exists w',
       devm_axi_spi_engine_offload_pwm_trigger_get_optional
         Scenario.env_no_property 9%nat Scenario.w_probed = Some (NULL, w')
       /\ IS_ERR (@NULL trigger_ptr) = false
       /\ calls w' = calls Scenario.w_probed
                     ++ [call_device_property_present 9%nat "adi,offloads"]
       /\ triggers w' = triggers Scenario.w_probed
       /\ iio_trigger_list w' = iio_trigger_list Scenario.w_probed
       /\ devres w' = devres Scenario.w_probed.
Proof.
  split; [reflexivity|].
  apply (get_optional_property_absent Scenario.env_no_property 9%nat Scenario.w_probed).
  reflexivity.
Defined.

(** C2. When the property is present and the reference resolves, but the
    platform bus has no device for the referenced node, or the trigger list
    has no trigger whose parent is that device, discovery returns
    [-EPROBE_DEFER]: neither the null pointer nor another error.  No
    reference is taken and nothing is registered. *)
Theorem get_optional_defers env dev w offload :
  property_present env dev "adi,offloads" = true ->
  reference_target env (fwnode_of env dev) "adi,offloads" 0 = Ok offload ->
  (platform_device_of env offload = NULL
   \/ exists offload_dev,
        platform_device_of env offload = PTR offload_dev
        /\ find_by_parent (triggers w) (iio_trigger_list w) offload_dev = None) ->
  exists w',
    devm_axi_spi_engine_offload_pwm_trigger_get_optional env dev w
      = Some (ERR_PTR (- EPROBE_DEFER), w')
    /\ triggers w' = triggers w
    /\ devres w' = devres w.
Proof.
  intros Hpresent Href Hmissing.
  unfold devm_axi_spi_engine_offload_pwm_trigger_get_optional, device_property_present,
    fwnode_find_reference, bus_find_device_by_fwnode, dev_fwnode.
  kwstep. rewrite Hpresent. kwstep. rewrite Href. kwstep.
  destruct Hmissing as [Hnull | (offload_dev & Hdev & Hnone)].
  - rewrite Hnull. eexists. repeat split; reflexivity.
  - rewrite Hdev. unfold iio_trigger_acquire_by_parent. kwstep.
    rewrite Hnone. eexists. repeat split; reflexivity.
Qed.

Lemma get_optional_defers_witness :
  exists w',
    devm_axi_spi_engine_offload_pwm_trigger_get_optional
      Scenario.env_ok 9%nat Scenario.w_boot = Some (ERR_PTR (- EPROBE_DEFER), w')
    /\ triggers w' = triggers Scenario.w_boot
    /\ devres w' = devres Scenario.w_boot.
Proof.
  apply (get_optional_defers Scenario.env_ok 9%nat Scenario.w_boot 7%nat).
  - reflexivity.
  - reflexivity.
  - right. exists 3%nat. split; reflexivity.
Defined.

Lemma with_refs_pred_S tr : with_refs Nat.pred (with_refs S tr) = tr.
Proof. destruct tr; reflexivity. Qed.

Lemma lookup_updated (ts : list iio_trigger) t tr x :
  ts !! t = Some tr -> <[t := x]> ts !! t = Some x.
Proof. intros H. apply list_lookup_insert_eq. eapply lookup_lt_Some, H. Qed.

(** Discovery past the registry lookup: a reference is taken, the release
    action is handed to [devm_add_action_or_reset], and only then is the
    trigger's type looked at. *)
Lemma get_optional_acquired env dev w offload offload_dev trig tr :
  property_present env dev "adi,offloads" = true ->
  reference_target env (fwnode_of env dev) "adi,offloads" 0 = Ok offload ->
  platform_device_of env offload = PTR offload_dev ->
  find_by_parent (triggers w) (iio_trigger_list w) offload_dev = Some trig ->
  triggers w !! trig = Some tr ->
  let release := Action fn_offload_pwm_trigger_release trig in
  let w1 :=
    log (call_devm_add_action dev release)
      (set_triggers (<[trig := with_refs S tr]>)
         (log (call_iio_trigger_acquire_by_parent offload_dev)
            (log (call_bus_find_device_by_fwnode offload)
               (log (call_fwnode_find_reference (fwnode_of env dev) "adi,offloads" 0)
                  (log (call_device_property_present dev "adi,offloads") w))))) in
  devm_axi_spi_engine_offload_pwm_trigger_get_optional env dev w =
    if add_action_status env dev release =? 0 then
      Some (if decide (trig_ops tr <> ops_axi_offload_pwm_trigger)
            then ERR_PTR (- EINVAL) else PTR trig,
            set_devres (<[dev := release :: devres_of w dev]>) w1)
    else
      Some (ERR_PTR (add_action_status env dev release),
            set_triggers (fun _ => triggers w) (log (call_iio_trigger_put trig) w1)).
Proof.
  intros Hpresent Href Hdev Hfound Htr release w1.
  unfold devm_axi_spi_engine_offload_pwm_trigger_get_optional, device_property_present,
    fwnode_find_reference, bus_find_device_by_fwnode, dev_fwnode,
    iio_trigger_acquire_by_parent, devm_add_action_or_reset, update_trigger.
  subst w1 release. kwstep.
  rewrite Hpresent. kwstep. rewrite Href. kwstep. rewrite Hdev. kwstep.
  rewrite Hfound. kwstep. rewrite Htr. kwstep.
  destruct (add_action_status env dev _ =? 0) eqn:Hstatus; kwstep.
  - rewrite (lookup_updated _ _ _ _ Htr). kwstep.
    destruct (decide (trig_ops tr <> ops_axi_offload_pwm_trigger)); reflexivity.
  - unfold run_action, axi_spi_engine_offload_pwm_trigger_release, iio_trigger_put,
      update_trigger. kwstep.
    rewrite (lookup_updated _ _ _ _ Htr). kwstep.
    rewrite Hstatus. kwstep. do 2 f_equal. apply set_triggers_ext. wstep.
    rewrite list_insert_insert_eq, with_refs_pred_S, (list_insert_id _ _ _ Htr).
    reflexivity.
Qed.

(** C1, as amended.  When the reference resolves to a device whose
    registered trigger has foreign operations, and the release action could
    be registered, discovery returns [-EINVAL] although the owner-device
    lookup succeeded. *)
Theorem get_optional_type_mismatch env dev w offload offload_dev trig tr :
  property_present env dev "adi,offloads" = true ->
  reference_target env (fwnode_of env dev) "adi,offloads" 0 = Ok offload ->
  platform_device_of env offload = PTR offload_dev ->
  find_by_parent (triggers w) (iio_trigger_list w) offload_dev = Some trig ->
  triggers w !! trig = Some tr ->
  trig_ops tr <> ops_axi_offload_pwm_trigger ->
  add_action_status env dev (Action fn_offload_pwm_trigger_release trig) = 0 ->
  exists w',
    devm_axi_spi_engine_offload_pwm_trigger_get_optional env dev w
      = Some (ERR_PTR (- EINVAL), w').
Proof.
  intros Hpresent Href Hdev Hfound Htr Hops Hstatus.
  rewrite (get_optional_acquired _ _ _ _ _ _ _ Hpresent Href Hdev Hfound Htr).
  rewrite Hstatus. cbn [Z.eqb].
  destruct (decide (trig_ops tr <> ops_axi_offload_pwm_trigger)); [|contradiction].
  eexists. reflexivity.
Qed.

Lemma get_optional_type_mismatch_witness :
  exists w',
    devm_axi_spi_engine_offload_pwm_trigger_get_optional
      Scenario.env_ok 9%nat Scenario.w_foreign = Some (ERR_PTR (- EINVAL), w').
Proof.
  apply (get_optional_type_mismatch Scenario.env_ok 9%nat Scenario.w_foreign
           7%nat 3%nat 0%nat
           {| trig_ops := foreign_ops 1; trig_parent := Some 3%nat;
              trig_drvdata := drvdata_foreign 1; trig_refs := 1 |});
    try reflexivity.
  discriminate.
Defined.

(** C1 as stated fails: the trigger registered for the owner device is a
    foreign one, the owner-device lookup succeeds, and yet discovery returns
    [-ENOMEM], because the release action could not be registered and that
    is tested before the trigger's type. *)
Lemma get_optional_type_mismatch_preempted :
  property_present Scenario.env_no_memory 9%nat "adi,offloads" = true
  /\ reference_target Scenario.env_no_memory
       (fwnode_of Scenario.env_no_memory 9%nat) "adi,offloads" 0 = Ok 7%nat
  /\ platform_device_of Scenario.env_no_memory 7%nat = PTR 3%nat
  /\ find_by_parent (triggers Scenario.w_foreign)
       (iio_trigger_list Scenario.w_foreign) 3%nat = Some 0%nat
  /\ trig_ops <$> triggers Scenario.w_foreign !! 0%nat = Some (foreign_ops 1)
  /\ foreign_ops 1 <> ops_axi_offload_pwm_trigger
  /\ exists r w',
       devm_axi_spi_engine_offload_pwm_trigger_get_optional
         Scenario.env_no_memory 9%nat Scenario.w_foreign = Some (r, w')
       /\ r = ERR_PTR (- ENOMEM)
       /\ r <> ERR_PTR (- EINVAL).
Proof.
  do 5 (split; [reflexivity|]). split; [discriminate|].
  eexists _, _. split; [reflexivity|]. split; [reflexivity|]. discriminate.
Qed.

(** C8, as amended.  In every discovery call that acquires a trigger from
    the registry, the release action is handed to [devm_add_action_or_reset]
    before anything else can make the call return.  When the registration
    succeeds, the action heads the consumer's managed actions on both later
    paths (the trigger is returned, or [-EINVAL] for a foreign one), and the
    consumer's teardown starts by running it, which brings the reference
    count back to what it was before the call.  When the registration fails,
    nothing is registered: the reference is dropped at once and the call
    returns the registration's error. *)
Theorem get_optional_registers_release env dev w offload offload_dev trig tr :
  property_present env dev "adi,offloads" = true ->
  reference_target env (fwnode_of env dev) "adi,offloads" 0 = Ok offload ->
  platform_device_of env offload = PTR offload_dev ->
  find_by_parent (triggers w) (iio_trigger_list w) offload_dev = Some trig ->
  triggers w !! trig = Some tr ->
  let release := Action fn_offload_pwm_trigger_release trig in
  let status := add_action_status env dev release in
  exists r w',
    devm_axi_spi_engine_offload_pwm_trigger_get_optional env dev w = Some (r, w')
    /\ calls w' =
         calls w ++ [call_device_property_present dev "adi,offloads";
                     call_fwnode_find_reference (fwnode_of env dev) "adi,offloads" 0;
                     call_bus_find_device_by_fwnode offload;
                     call_iio_trigger_acquire_by_parent offload_dev;
                     call_devm_add_action dev release]
                 ++ (if status =? 0 then [] else [call_iio_trigger_put trig])
    /\ if status =? 0 then
         (r = PTR trig \/ r = ERR_PTR (- EINVAL))
         /\ devres_of w' dev = release :: devres_of w dev
         /\ trigger_refs w' trig = Some (S (trig_refs tr))
         /\ exists w1,
              run_action release (set_devres (delete dev) w') = Some (tt, w1)
              /\ trigger_refs w1 trig = Some (trig_refs tr)
              /\ devres_release_all dev w' = run_actions (devres_of w dev) w1
       else
         r = ERR_PTR status
         /\ devres w' = devres w
         /\ triggers w' = triggers w.
Proof.
  intros Hpresent Href Hdev Hfound Htr release status.
  rewrite (get_optional_acquired _ _ _ _ _ _ _ Hpresent Href Hdev Hfound Htr).
  fold release. fold status.
  destruct (status =? 0) eqn:Hstatus.
  - eexists _, _. split; [reflexivity|].
    split; [wstep; rewrite <- !app_assoc; reflexivity|].
    split; [destruct (decide (trig_ops tr <> ops_axi_offload_pwm_trigger)); auto|].
    split; [wstep; rewrite lookup_insert_eq; reflexivity|].
    split; [wstep; rewrite (lookup_updated _ _ _ _ Htr); reflexivity|].
    subst release.
    unfold devres_release_all, run_action, axi_spi_engine_offload_pwm_trigger_release,
      iio_trigger_put, update_trigger.
    kwstep. rewrite (lookup_updated _ _ _ _ Htr). kwstep.
    eexists. split; [reflexivity|].
    split.
    + wstep. rewrite list_insert_insert_eq, (lookup_updated _ _ _ _ Htr).
      destruct tr; reflexivity.
    + rewrite lookup_insert_eq. kwstep. unfold id. cbn [run_actions].
      unfold run_action, axi_spi_engine_offload_pwm_trigger_release,
        iio_trigger_put, update_trigger.
      kwstep. rewrite (lookup_updated _ _ _ _ Htr). kwstep. reflexivity.
  - eexists _, _. split; [reflexivity|].
    split; [wstep; rewrite <- !app_assoc; reflexivity|].
    repeat split.
Qed.

Lemma get_optional_registers_release_witness :
  exists r w',
    devm_axi_spi_engine_offload_pwm_trigger_get_optional
      Scenario.env_ok 9%nat Scenario.w_probed = Some (r, w')
    /\ calls w' =
         calls Scenario.w_probed
           ++ [call_device_property_present 9%nat "adi,offloads";
               call_fwnode_find_reference 9%nat "adi,offloads" 0;
               call_bus_find_device_by_fwnode 7%nat;
               call_iio_trigger_acquire_by_parent 3%nat;
               call_devm_add_action 9%nat (Action fn_offload_pwm_trigger_release 0%nat)]
           ++ []
    /\ (r = PTR 0%nat \/ r = ERR_PTR (- EINVAL))
    /\ devres_of w' 9%nat
       = Action fn_offload_pwm_trigger_release 0%nat :: devres_of Scenario.w_probed 9%nat
    /\ trigger_refs w' 0%nat = Some 2%nat
    /\ exists w1,
         run_action (Action fn_offload_pwm_trigger_release 0%nat)
           (set_devres (delete 9%nat) w') = Some (tt, w1)
         /\ trigger_refs w1 0%nat = Some 1%nat
         /\ devres_release_all 9%nat w'
            = run_actions (devres_of Scenario.w_probed 9%nat) w1.
Proof.
  exact (get_optional_registers_release Scenario.env_ok 9%nat Scenario.w_probed
           7%nat 3%nat 0%nat
           {| trig_ops := ops_axi_offload_pwm_trigger; trig_parent := Some 3%nat;
              trig_drvdata := drvdata_axi {| st_buffer := 5; st_pwm := 0 |};
              trig_refs := 1 |}
           eq_refl eq_refl eq_refl eq_refl eq_refl).
Defined.

(** C8 as stated fails: discovery acquires the registered trigger, the
    kernel cannot register the release action, and the call returns with no
    release action among the consumer's managed actions. *)
Lemma get_optional_release_not_registered :
  find_by_parent (triggers Scenario.w_probed)
    (iio_trigger_list Scenario.w_probed) 3%nat = Some 0%nat
  /\ exists r w',
       devm_axi_spi_engine_offload_pwm_trigger_get_optional
         Scenario.env_no_memory 9%nat Scenario.w_probed = Some (r, w')
       /\ r = ERR_PTR (- ENOMEM)
       /\ ~ In (Action fn_offload_pwm_trigger_release 0%nat) (devres_of w' 9%nat).
Proof.
  split; [reflexivity|].
  eexists _, _. split; [reflexivity|]. split; [reflexivity|].
  vm_compute. tauto.
Qed.

(** ** Attachment *)

Lemma land_lor_mask m k b : Z.land k b = b -> Z.land (Z.lor m k) b = b.
Proof.
  intros H. apply Z.bits_inj'. intros n _.
  assert (Hb : Z.testbit (Z.land k b) n = Z.testbit b n) by (rewrite H; reflexivity).
  rewrite Z.land_spec in Hb. rewrite Z.land_spec, Z.lor_spec.
  destruct (Z.testbit m n), (Z.testbit k n), (Z.testbit b n);
    simpl in Hb |- *; congruence.
Qed.

(** C3, as amended.  [setup] on a trigger whose operations are not this
    driver's returns [-EINVAL] and leaves the whole kernel state, the
    consumer device included, as it was.  On one of this driver's triggers
    it ORs the two hardware-streaming mode bits into the consumer's modes,
    takes a reference on the trigger and makes that very trigger the
    consumer's active one, and hands the buffer owned by the trigger to
    [iio_device_attach_buffer] for this consumer, whose status it returns.
    The buffer is attached when that status is [0]; when the attachment
    fails, [setup] returns its error with the modes, the trigger and the
    reference as set and no buffer attached. *)
Theorem setup_checks_then_attaches env indio_dev trig w tr :
  triggers w !! trig = Some tr ->
  (trig_ops tr <> ops_axi_offload_pwm_trigger ->
   axi_spi_engine_offload_pwm_trigger_setup env indio_dev trig w = Some (- EINVAL, w))
  /\ (trig_ops tr = ops_axi_offload_pwm_trigger ->
      forall st d,
        trig_drvdata tr = drvdata_axi st ->
        iio_devs w !! indio_dev = Some d ->
        let status := attach_buffer_status env indio_dev (st_buffer st) in
        exists w' d',
          axi_spi_engine_offload_pwm_trigger_setup env indio_dev trig w = Some (status, w')
          /\ iio_devs w' !! indio_dev = Some d'
          /\ indio_modes d' =
               Z.lor (indio_modes d) (Z.lor INDIO_BUFFER_HARDWARE INDIO_HARDWARE_TRIGGERED)
          /\ Z.land (indio_modes d') INDIO_BUFFER_HARDWARE = INDIO_BUFFER_HARDWARE
          /\ Z.land (indio_modes d') INDIO_HARDWARE_TRIGGERED = INDIO_HARDWARE_TRIGGERED
          /\ indio_trig d' = Some trig
          /\ trigger_refs w' trig = Some (S (trig_refs tr))
          /\ calls w' = calls w ++ [call_iio_trigger_get trig;
                                    call_iio_device_attach_buffer indio_dev (st_buffer st)]
          /\ (status = 0 -> indio_buffers d' = indio_buffers d ++ [st_buffer st])
          /\ (status <> 0 -> indio_buffers d' = indio_buffers d)).
Proof.
  intros Htr. split.
  - intros Hops.
    unfold axi_spi_engine_offload_pwm_trigger_setup, iio_trigger_get_drvdata.
    kwstep. rewrite Htr. kwstep. rewrite Htr. kwstep.
    destruct (decide (trig_ops tr <> ops_axi_offload_pwm_trigger)); [|contradiction].
    reflexivity.
  - intros Hops st d Hst Hd status. subst status.
    unfold axi_spi_engine_offload_pwm_trigger_setup, iio_trigger_get_drvdata,
      update_iio_dev, iio_trigger_get, update_trigger, iio_device_attach_buffer.
    kwstep. rewrite Htr. kwstep. rewrite Htr. kwstep.
    destruct (decide (trig_ops tr <> ops_axi_offload_pwm_trigger)); [contradiction|].
    rewrite Hd. kwstep. rewrite Htr. kwstep. rewrite lookup_insert_eq. kwstep.
    rewrite Hst. unfold st_field. kwstep. rewrite lookup_insert_eq. kwstep.
    destruct (attach_buffer_status env indio_dev (st_buffer st) =? 0) eqn:Hstatus; kwstep.
    + apply Z.eqb_eq in Hstatus. rewrite Hstatus.
      eexists _, _. split; [reflexivity|].
      split; [wstep; apply lookup_insert_eq|]. wstep.
      split; [reflexivity|].
      split; [apply land_lor_mask; reflexivity|].
      split; [apply land_lor_mask; reflexivity|].
      split; [reflexivity|].
      split; [rewrite (lookup_updated _ _ _ _ Htr); reflexivity|].
      split; [rewrite <- !app_assoc; reflexivity|].
      split; [reflexivity|congruence].
    + apply Z.eqb_neq in Hstatus.
      eexists _, _. split; [reflexivity|].
      split; [wstep; apply lookup_insert_eq|]. wstep.
      split; [reflexivity|].
      split; [apply land_lor_mask; reflexivity|].
      split; [apply land_lor_mask; reflexivity|].
      split; [reflexivity|].
      split; [rewrite (lookup_updated _ _ _ _ Htr); reflexivity|].
      split; [rewrite <- !app_assoc; reflexivity|].
      split; [congruence|reflexivity].
Qed.

Lemma setup_checks_then_attaches_witness :
  axi_spi_engine_offload_pwm_trigger_setup Scenario.env_ok 9%nat 0%nat Scenario.w_foreign
    = Some (- EINVAL, Scenario.w_foreign)
  /\ exists w' d',
       axi_spi_engine_offload_pwm_trigger_setup Scenario.env_ok 9%nat 0%nat Scenario.w_probed
         = Some (0, w')
       /\ iio_devs w' !! 9%nat = Some d'
       /\ indio_modes d' = 41
       /\ Z.land (indio_modes d') INDIO_BUFFER_HARDWARE = INDIO_BUFFER_HARDWARE
       /\ Z.land (indio_modes d') INDIO_HARDWARE_TRIGGERED = INDIO_HARDWARE_TRIGGERED
       /\ indio_trig d' = Some 0%nat
       /\ trigger_refs w' 0%nat = Some 2%nat
       /\ calls w' = [call_iio_trigger_get 0%nat; call_iio_device_attach_buffer 9%nat 5%nat]
       /\ (0 = 0 -> indio_buffers d' = [5%nat])
       /\ (0 <> 0 -> indio_buffers d' = []).
Proof.
  split.
  - apply (proj1 (setup_checks_then_attaches Scenario.env_ok 9%nat 0%nat
                    Scenario.w_foreign _ eq_refl)).
    discriminate.
  - exact (proj2 (setup_checks_then_attaches Scenario.env_ok 9%nat 0%nat
                    Scenario.w_probed _ eq_refl)
             eq_refl {| st_buffer := 5; st_pwm := 0 |} Scenario.consumer_idle
             eq_refl eq_refl).
Defined.

(** C3 as stated fails: the trigger is this driver's own, the IIO core
    cannot attach a buffer, and [setup] returns [-ENOMEM]: the consumer's
    modes and active trigger are set and the trigger holds one more
    reference, but the trigger's own buffer is not attached. *)
Lemma setup_attach_fails_buffer_not_attached :
  trig_ops <$> triggers Scenario.w_probed !! 0%nat = Some ops_axi_offload_pwm_trigger
  /\ trig_drvdata <$> triggers Scenario.w_probed !! 0%nat
     = Some (drvdata_axi {| st_buffer := 5; st_pwm := 0 |})
  /\ exists r w' d',
       axi_spi_engine_offload_pwm_trigger_setup Scenario.env_attach_fails
         9%nat 0%nat Scenario.w_probed = Some (r, w')
       /\ r = - ENOMEM
       /\ iio_devs w' !! 9%nat = Some d'
       /\ indio_modes d' = 41
       /\ indio_trig d' = Some 0%nat
       /\ trigger_refs w' 0%nat = Some 2%nat
       /\ ~ In 5%nat (indio_buffers d').
Proof.
  split; [reflexivity|]. split; [reflexivity|].
  let run := eval vm_compute in
    (axi_spi_engine_offload_pwm_trigger_setup Scenario.env_attach_fails
       9%nat 0%nat Scenario.w_probed) in
  match run with
  | Some (?r, ?w') =>
      exists r, w',
        {| indio_modes := 41; indio_trig := Some 0%nat; indio_buffers := [] |}
  end.
  split; [vm_compute; reflexivity|]. split; [reflexivity|].
  split; [vm_compute; reflexivity|].
  split; [reflexivity|]. split; [reflexivity|].
  split; [vm_compute; reflexivity|].
  simpl. tauto.
Qed.

(** ** Rate control *)

Lemma u32_id x : Int.is_u32 x -> Int.u32 x = x.
Proof. unfold Int.is_u32, Int.u32. intros. apply Z.mod_small. lia. Qed.

Lemma u64_id x : Int.is_u64 x -> Int.u64 x = x.
Proof. unfold Int.is_u64, Int.u64. intros. apply Z.mod_small. lia. Qed.

Lemma int_id x : - 2 ^ 31 <= x < 2 ^ 31 -> Int.int x = x.
Proof. unfold Int.int. intros. rewrite Z.mod_small; lia. Qed.

(** [DIV_ROUND_UP n d] is the least [p] with [n <= p * d]. *)
Lemma DIV_ROUND_UP_ceil n d :
  0 < d ->
  (DIV_ROUND_UP n d - 1) * d < n <= DIV_ROUND_UP n d * d.
Proof.
  intros Hd. unfold DIV_ROUND_UP.
  pose proof (Z.div_mod (n + d - 1) d ltac:(lia)) as Hdiv.
  pose proof (Z.mod_pos_bound (n + d - 1) d Hd) as Hmod.
  nia.
Qed.

Lemma period_of_u32_rate hz :
  0 < hz < 2 ^ 32 ->
  1 <= DIV_ROUND_UP NSEC_PER_SEC hz <= NSEC_PER_SEC.
Proof.
  intros Hhz. pose proof (DIV_ROUND_UP_ceil NSEC_PER_SEC hz ltac:(lia)) as Hceil.
  unfold NSEC_PER_SEC in *. nia.
Qed.

(** [DIV_ROUND_CLOSEST_ULL x d] is the integer nearest to [x / d], the upper
    one on a tie. *)
Lemma DIV_ROUND_CLOSEST_ULL_round x d :
  0 <= x < 2 ^ 63 -> 0 < d < 2 ^ 64 ->
  let r := DIV_ROUND_CLOSEST_ULL x d in
  (2 * r - 1) * d <= 2 * x < (2 * r + 1) * d.
Proof.
  intros Hx Hd r. subst r. unfold DIV_ROUND_CLOSEST_ULL.
  pose proof (Z.div_mod d 2 ltac:(lia)) as Hhalf.
  pose proof (Z.mod_pos_bound d 2 ltac:(lia)) as Hparity.
  rewrite u64_id by (unfold Int.is_u64; lia).
  pose proof (Z.div_mod (x + d / 2) d ltac:(lia)) as Hdiv.
  pose proof (Z.mod_pos_bound (x + d / 2) d ltac:(lia)) as Hmod.
  nia.
Qed.

Lemma DIV_ROUND_CLOSEST_ULL_u32 d :
  0 < d < 2 ^ 64 -> Int.is_u32 (DIV_ROUND_CLOSEST_ULL NSEC_PER_SEC d).
Proof.
  intros Hd.
  pose proof (DIV_ROUND_CLOSEST_ULL_round NSEC_PER_SEC d
                ltac:(unfold NSEC_PER_SEC; lia) Hd) as Hr.
  cbv zeta in Hr. unfold Int.is_u32, NSEC_PER_SEC in *. nia.
Qed.

(** One call of [set_samp_freq] with a nonzero rate: one [pwm_config] call,
    whose status is returned and whose configuration is recorded when the
    PWM accepts it. *)
Lemma set_samp_freq_run env st p w requested_hz :
  0 < requested_hz < 2 ^ 32 ->
  pwms w !! st_pwm st = Some p ->
  let period_ns := DIV_ROUND_UP NSEC_PER_SEC requested_hz in
  let status := pwm_apply_status env (st_pwm st) 10 period_ns in
  let w1 := log (call_pwm_config (st_pwm st) 10 period_ns) w in
  axi_spi_engine_offload_set_samp_freq env (drvdata_axi st) requested_hz w =
    Some (status,
          if status =? 0
          then set_pwms (<[st_pwm st := {| pwm_period := period_ns;
                                           pwm_duty_cycle := 10;
                                           pwm_enabled := pwm_enabled p |}]>) w1
          else w1).
Proof.
  intros Hhz Hp period_ns status w1. subst w1 status period_ns.
  pose proof (period_of_u32_rate requested_hz Hhz) as Hperiod.
  unfold axi_spi_engine_offload_set_samp_freq, st_field, pwm_config.
  destruct (requested_hz =? 0) eqn:Hzero; [apply Z.eqb_eq in Hzero; lia|].
  rewrite int_id by (unfold NSEC_PER_SEC in *; lia).
  kwstep. rewrite Hp. kwstep.
  destruct (pwm_apply_status env (st_pwm st) 10 _ =? 0) eqn:Hstatus; kwstep.
  - apply Z.eqb_eq in Hstatus. rewrite Hstatus.
    rewrite !u64_id by (unfold Int.is_u64, NSEC_PER_SEC in *; lia).
    reflexivity.
  - reflexivity.
Qed.



Lemma get_rate_run w trig tr st p :
  triggers w !! trig = Some tr ->
  trig_drvdata tr = drvdata_axi st ->
  pwms w !! st_pwm st = Some p ->
  Int.is_u64 (pwm_period p) ->
  axi_spi_engine_offload_pwm_trigger_get_rate trig w =
    Some (if pwm_period p =? 0 then 0
          else DIV_ROUND_CLOSEST_ULL NSEC_PER_SEC (pwm_period p), w).
Proof.
  intros Htr Hst Hp Hrange.
  unfold axi_spi_engine_offload_pwm_trigger_get_rate, iio_trigger_get_drvdata,
    st_field, pwm_get_period.
  kwstep. rewrite Htr. kwstep. rewrite Hst. kwstep. rewrite Hp. kwstep.
  rewrite (u64_id _ Hrange).
  destruct (pwm_period p =? 0) eqn:Hzero; kwstep; [reflexivity|].
  apply Z.eqb_neq in Hzero.
  rewrite u32_id; [reflexivity|].
  apply DIV_ROUND_CLOSEST_ULL_u32. unfold Int.is_u64 in Hrange. lia.
Qed.

(** Reading back a rate of at most 10 kHz: the nearest integer to
    [10^9 / ceil (10^9 / f)] is within one of [f]. *)
Lemma round_trip_within_one f period r :
  1 <= f <= 10000 ->
  (period - 1) * f < 10 ^ 9 <= period * f ->
  (2 * r - 1) * period <= 2 * 10 ^ 9 < (2 * r + 1) * period ->
  - 1 <= r - f <= 1.
Proof.
  intros Hf Hceil Hround.
  assert (Hperiod : 100000 <= period) by nia.
  split.
  - destruct (Z_lt_le_dec r (f - 1)) as [Hlow|]; [|lia].
    assert ((2 * r + 1) * period <= (2 * f - 3) * period) by nia.
    nia.
  - destruct (Z_lt_le_dec (f + 1) r) as [Hhigh|]; [|lia].
    assert ((2 * f + 3) * period <= (2 * r - 1) * period) by nia.
    nia.
Qed.

(** C5. [get_rate] returns [0] when the PWM's period is [0] and otherwise
    the integer nearest to [10^9 / period_ns].  Hence, for every [f] from 1
    to 10000, after a call of [set_samp_freq] with [f] that the PWM accepts,
    [get_rate] returns the integer nearest to [10^9 / ceil (10^9 / f)], and
    that is within one Hz of [f]. *)
Theorem get_rate_rounds_and_round_trips env w trig tr st p :
  triggers w !! trig = Some tr ->
  trig_drvdata tr = drvdata_axi st ->
  pwms w !! st_pwm st = Some p ->
  Int.is_u64 (pwm_period p) ->
  (pwm_period p = 0 ->
   axi_spi_engine_offload_pwm_trigger_get_rate trig w = Some (0, w))
  /\ (pwm_period p <> 0 ->
      exists r,
        axi_spi_engine_offload_pwm_trigger_get_rate trig w = Some (r, w)
        /\ (2 * r - 1) * pwm_period p <= 2 * 10 ^ 9 < (2 * r + 1) * pwm_period p)
  /\ (forall f w',
        1 <= f <= 10000 ->
        axi_spi_engine_offload_set_samp_freq env (drvdata_axi st) f w = Some (0, w') ->
        exists period r,
          (period - 1) * f < 10 ^ 9 <= period * f
          /\ (2 * r - 1) * period <= 2 * 10 ^ 9 < (2 * r + 1) * period
          /\ axi_spi_engine_offload_pwm_trigger_get_rate trig w' = Some (r, w')
          /\ - 1 <= r - f <= 1).
Proof.
  intros Htr Hst Hp Hrange.
  pose proof (get_rate_run w trig tr st p Htr Hst Hp Hrange) as Hget.
  split; [|split].
  - intros Hzero. rewrite Hget, Hzero. reflexivity.
  - intros Hnonzero. eexists. split; [exact Hget|].
    apply Z.eqb_neq in Hnonzero. rewrite Hnonzero.
    apply (DIV_ROUND_CLOSEST_ULL_round NSEC_PER_SEC (pwm_period p)).
    + unfold NSEC_PER_SEC. lia.
    + apply Z.eqb_neq in Hnonzero. unfold Int.is_u64 in Hrange. lia.
  - intros f w' Hf Hset.
    assert (Hhz : 0 < f < 2 ^ 32) by lia.
    rewrite (set_samp_freq_run env st p w f Hhz Hp) in Hset.
    injection Hset as Hstatus Hw'. rewrite Hstatus in Hw'. cbn [Z.eqb] in Hw'.
    pose proof (DIV_ROUND_UP_ceil NSEC_PER_SEC f ltac:(lia)) as Hceil.
    pose proof (period_of_u32_rate f Hhz) as Hperiod.
    set (period := DIV_ROUND_UP NSEC_PER_SEC f) in *.
    assert (Hround : (2 * DIV_ROUND_CLOSEST_ULL NSEC_PER_SEC period - 1) * period
                     <= 2 * 10 ^ 9
                     < (2 * DIV_ROUND_CLOSEST_ULL NSEC_PER_SEC period + 1) * period).
    { apply (DIV_ROUND_CLOSEST_ULL_round NSEC_PER_SEC period);
        unfold NSEC_PER_SEC in *; lia. }
    exists period, (DIV_ROUND_CLOSEST_ULL NSEC_PER_SEC period).
    split; [exact Hceil|]. split; [exact Hround|].
    split; [|exact (round_trip_within_one _ _ _ Hf Hceil Hround)].
    subst w'.
    rewrite (get_rate_run _ trig tr st
               {| pwm_period := period; pwm_duty_cycle := 10;
                  pwm_enabled := pwm_enabled p |}).
    + cbn [pwm_period].
      destruct (period =? 0) eqn:Hzero; [apply Z.eqb_eq in Hzero; lia|reflexivity].
    + wstep. exact Htr.
    + exact Hst.
    + wstep. apply lookup_insert_eq.
    + cbn [pwm_period]. unfold Int.is_u64, NSEC_PER_SEC in *. lia.
Qed.

Lemma get_rate_rounds_and_round_trips_witness :
  (exists r,
     axi_spi_engine_offload_pwm_trigger_get_rate 0%nat Scenario.w_probed
       = Some (r, Scenario.w_probed)
     /\ (2 * r - 1) * 1000000 <= 2 * 10 ^ 9 < (2 * r + 1) * 1000000)
  /\ (exists w' period r,
        axi_spi_engine_offload_set_samp_freq Scenario.env_ok
          (drvdata_axi {| st_buffer := 5; st_pwm := 0 |}) 9999 Scenario.w_probed
          = Some (0, w')
        /\ (period - 1) * 9999 < 10 ^ 9 <= period * 9999
        /\ (2 * r - 1) * period <= 2 * 10 ^ 9 < (2 * r + 1) * period
        /\ axi_spi_engine_offload_pwm_trigger_get_rate 0%nat w' = Some (r, w')
        /\ - 1 <= r - 9999 <= 1).
Proof.
  assert (Hrange : Int.is_u64 1000000) by (unfold Int.is_u64; lia).
  destruct (get_rate_rounds_and_round_trips Scenario.env_ok Scenario.w_probed 0%nat
              {| trig_ops := ops_axi_offload_pwm_trigger; trig_parent := Some 3%nat;
                 trig_drvdata := drvdata_axi {| st_buffer := 5; st_pwm := 0 |};
                 trig_refs := 1 |}
              {| st_buffer := 5; st_pwm := 0 |}
              {| pwm_period := 1000000; pwm_duty_cycle := 10; pwm_enabled := true |}
              eq_refl eq_refl eq_refl Hrange) as (_ & Hround & Htrip).
  split.
  - apply Hround. discriminate.
  - destruct (Htrip 9999 _ ltac:(lia) eq_refl) as (period & r & Hceil & Hr & Hget & Hnear).
    match type of Hget with
    | axi_spi_engine_offload_pwm_trigger_get_rate _ ?w' = _ => exists w', period, r
    end.
    split; [reflexivity|]. split; [exact Hceil|]. split; [exact Hr|].
    split; [exact Hget|exact Hnear].
Defined.

(** ** The rate attribute *)

Lemma digit_is_not_newline c :
  Kstrtox.is_digit c = true -> Ascii.eqb c Kstrtox.newline = false.
Proof.
  destruct c as [[] [] [] [] [] [] [] []]; vm_compute; congruence.
Qed.

Lemma parse_integer_count s : forall acc n v m rest,
  Kstrtox.parse_integer s acc n = (v, m, rest) ->
  (n <= m)%nat /\ (m = n -> rest = s).
Proof.
  induction s as [|c s IH]; intros acc n v m rest; cbn [Kstrtox.parse_integer].
  - intros [= <- <- <-]. split; [lia|reflexivity].
  - destruct (Kstrtox.is_digit c).
    + intros Hparse. apply IH in Hparse as [Hle Hsame]. split; lia.
    + intros [= <- <- <-]. split; [lia|reflexivity].
Qed.

Lemma drop_final_newline_cons c c' s :
  Kstrtox.drop_final_newline (String c (String c' s))
  = String c (Kstrtox.drop_final_newline (String c' s)).
Proof. reflexivity. Qed.

(** A text the digit loop consumes up to an optional final newline is a
    numeric payload. *)
Lemma parse_integer_complete s : forall acc n v m rest,
  Kstrtox.parse_integer s acc n = (v, m, rest) ->
  m <> n ->
  Kstrtox.skip_newline rest = EmptyString ->
  Kstrtox.drop_final_newline s <> EmptyString
  /\ Kstrtox.all_digits (Kstrtox.drop_final_newline s) = true.
Proof.
  induction s as [|c s IH]; intros acc n v m rest; cbn [Kstrtox.parse_integer].
  - intros [= <- <- <-] Hm. contradiction.
  - destruct (Kstrtox.is_digit c) eqn:Hdigit.
    + intros Hparse Hm Hrest.
      pose proof (digit_is_not_newline c Hdigit) as Hnl.
      destruct (Nat.eq_dec m (S n)) as [Hone|Hmore].
      * apply parse_integer_count in Hparse as [_ Hsame].
        rewrite (Hsame Hone) in Hrest.
        destruct s as [|c' s'].
        -- cbn [Kstrtox.drop_final_newline]. rewrite Hnl.
           cbn [Kstrtox.all_digits]. rewrite Hdigit. split; [discriminate|reflexivity].
        -- cbn [Kstrtox.skip_newline] in Hrest.
           destruct (Ascii.eqb c' Kstrtox.newline) eqn:Hc'; [|discriminate].
           subst s'. cbn [Kstrtox.drop_final_newline]. rewrite Hc'.
           cbn [Kstrtox.all_digits]. rewrite Hdigit. split; [discriminate|reflexivity].
      * destruct (IH _ _ _ _ _ Hparse Hmore Hrest) as [Hnonempty Hall].
        destruct s as [|c' s']; [contradiction|].
        rewrite drop_final_newline_cons. cbn [Kstrtox.all_digits].
        rewrite Hdigit, Hall. split; [discriminate|reflexivity].
    + intros [= <- <- <-] Hm. contradiction.
Qed.

(** [kstrtou32] refuses every payload that is not numeric. *)
Lemma kstrtou32_non_numeric buf :
  Kstrtox.numeric buf = false ->
  exists e, Kstrtox.kstrtou32 buf = inl e /\ e < 0.
Proof.
  intros Hnumeric. unfold Kstrtox.kstrtou32, Kstrtox.kstrtoull.
  destruct (Kstrtox.parse_integer (Kstrtox.skip_plus buf) 0 0) as [[v n] rest] eqn:Hparse.
  destruct (2 ^ 64 <=? v); [exists (- ERANGE); split; [reflexivity|unfold ERANGE; lia]|].
  destruct (Nat.eqb n 0) eqn:Hn;
    [exists (- EINVAL); split; [reflexivity|unfold EINVAL; lia]|].
  apply Nat.eqb_neq in Hn.
  destruct (Kstrtox.skip_newline rest) eqn:Hrest;
    [|exists (- EINVAL); split; [reflexivity|unfold EINVAL; lia]].
  exfalso.
  destruct (parse_integer_complete _ _ _ _ _ _ Hparse Hn Hrest) as [Hnonempty Hall].
  unfold Kstrtox.numeric in Hnumeric.
  destruct (Kstrtox.drop_final_newline (Kstrtox.skip_plus buf)); congruence.
Qed.

(** C6. A write to the rate attribute whose payload is not numeric, or is
    the number zero, fails with a negative errno ([-EINVAL] for zero) and
    leaves the kernel state exactly as it was: no [pwm_config] call is made,
    the period and the duty cycle are as before, and a read of the
    attribute after the write gives what a read before it gave. *)
Theorem sampling_frequency_store_rejects env trig tr buf len w :
  triggers w !! trig = Some tr ->
  Kstrtox.numeric buf = false \/ Kstrtox.kstrtou32 buf = inr 0 ->
  exists e,
    sampling_frequency_store env trig buf len w = Some (e, w)
    /\ e < 0
    /\ (Kstrtox.kstrtou32 buf = inr 0 -> e = - EINVAL)
    /\ bind (sampling_frequency_store env trig buf len)
         (fun _ => sampling_frequency_show trig) w
       = sampling_frequency_show trig w.
Proof.
  intros Htr Hbad.
  assert (Hstore : exists e,
             sampling_frequency_store env trig buf len w = Some (e, w)
             /\ e < 0
             /\ (Kstrtox.kstrtou32 buf = inr 0 -> e = - EINVAL)).
  { unfold sampling_frequency_store, iio_trigger_get_drvdata.
    kwstep. rewrite Htr. kwstep.
    destruct Hbad as [Hnumeric|Hzero].
    - destruct (kstrtou32_non_numeric buf Hnumeric) as (e & -> & Hneg).
      exists e. split; [reflexivity|]. split; [exact Hneg|]. discriminate.
    - rewrite Hzero. unfold axi_spi_engine_offload_set_samp_freq. kwstep.
      exists (- EINVAL). split; [reflexivity|]. split; [unfold EINVAL; lia|reflexivity]. }
  destruct Hstore as (e & Hrun & Hneg & Hzero).
  exists e. split; [exact Hrun|]. split; [exact Hneg|]. split; [exact Hzero|].
  unfold bind at 1. rewrite Hrun. reflexivity.
Qed.

Lemma sampling_frequency_store_rejects_witness :
  (exists e,
     sampling_frequency_store Scenario.env_ok 0%nat "fast" 4 Scenario.w_probed
       = Some (e, Scenario.w_probed)
     /\ e < 0
     /\ (Kstrtox.kstrtou32 "fast" = inr 0 -> e = - EINVAL)
     /\ bind (sampling_frequency_store Scenario.env_ok 0%nat "fast" 4)
          (fun _ => sampling_frequency_show 0%nat) Scenario.w_probed
        = sampling_frequency_show 0%nat Scenario.w_probed)
  /\ (exists e,
        sampling_frequency_store Scenario.env_ok 0%nat "0" 1 Scenario.w_probed
          = Some (e, Scenario.w_probed)
        /\ e < 0
        /\ (Kstrtox.kstrtou32 "0" = inr 0 -> e = - EINVAL)
        /\ bind (sampling_frequency_store Scenario.env_ok 0%nat "0" 1)
             (fun _ => sampling_frequency_show 0%nat) Scenario.w_probed
           = sampling_frequency_show 0%nat Scenario.w_probed).
Proof.
  split.
  - apply (sampling_frequency_store_rejects Scenario.env_ok 0%nat
             {| trig_ops := ops_axi_offload_pwm_trigger; trig_parent := Some 3%nat;
                trig_drvdata := drvdata_axi {| st_buffer := 5; st_pwm := 0 |};
                trig_refs := 1 |} "fast" 4 Scenario.w_probed eq_refl).
    left. reflexivity.
  - apply (sampling_frequency_store_rejects Scenario.env_ok 0%nat
             {| trig_ops := ops_axi_offload_pwm_trigger; trig_parent := Some 3%nat;
                trig_drvdata := drvdata_axi {| st_buffer := 5; st_pwm := 0 |};
                trig_refs := 1 |} "0" 1 Scenario.w_probed eq_refl).
    right. reflexivity.
Defined.

(** ** Trigger operations *)

(** C9. The [validate_device] callback of this driver's operations returns
    [-EINVAL] for every trigger and every consumer device and changes
    nothing, so an assignment through the generic interface, which consults
    the callback, is rejected whatever its arguments. *)
Theorem validate_device_always_rejects env trig indio_dev w :
  axi_offload_pwm_trigger_validate_device trig indio_dev w = Some (- EINVAL, w)
  /\ validate_device (axi_offload_pwm_trigger_ops env) trig indio_dev w
     = Some (- EINVAL, w)
  /\ - EINVAL < 0
  /\ generic_trigger_assign (axi_offload_pwm_trigger_ops env) indio_dev trig w
     = Some (- EINVAL, w).
Proof.
  split; [reflexivity|]. split; [reflexivity|].
  split; [unfold EINVAL; lia|reflexivity].
Qed.

(** ** Provider initialisation *)

Lemma lookup_snoc_new {A} (l : list A) x : (l ++ [x]) !! List.length l = Some x.
Proof. apply list_lookup_middle. reflexivity. Qed.

Lemma insert_snoc_new {A} (l : list A) x y : <[List.length l := y]> (l ++ [x]) = l ++ [y].
Proof.
  replace (List.length l) with (List.length l + 0)%nat by lia.
  rewrite insert_app_r. reflexivity.
Qed.

(** C10. A probe that returns [0] has configured the PWM with a duty cycle
    of 10 ns and a period of 1,000,000 ns (1000 Hz) and then enabled it,
    both accepted, before the call that registers the trigger; the new
    trigger is then the last entry of the trigger list and reads back a rate
    of 1000 Hz.  A probe that returns anything else, in particular one whose
    PWM configuration or enabling failed, leaves the trigger list as it
    was. *)
Theorem probe_sets_default_rate_then_registers env pdev w r w' :
  axi_offload_pwm_trigger_probe env pdev w = Some (r, w') ->
  (r = 0
   /\ exists pwm buffer p,
        let trig := List.length (triggers w) in
        let st := {| st_buffer := buffer; st_pwm := pwm |} in
        pwm_of env pdev = Ok pwm
        /\ dma_buffer_of env pdev "rx" = Ok buffer
        /\ pwms w !! pwm = Some p
        /\ pwm_apply_status env pwm 10 1000000 = 0
        /\ pwm_enable_status env pwm = 0
        /\ calls w' =
             calls w ++ [call_devm_pwm_get pdev;
                         call_devm_iio_dmaengine_buffer_alloc pdev "rx";
                         call_devm_iio_trigger_alloc pdev;
                         call_pwm_config pwm 10 1000000;
                         call_pwm_enable pwm;
                         call_devm_add_action pdev
                           (Action fn_offload_pwm_trigger_pwm_disable pwm);
                         call_devm_iio_trigger_register pdev trig]
        /\ pwms w' !! pwm = Some {| pwm_period := 1000000; pwm_duty_cycle := 10;
                                    pwm_enabled := true |}
        /\ triggers w' !! trig = Some {| trig_ops := ops_axi_offload_pwm_trigger;
                                         trig_parent := Some pdev;
                                         trig_drvdata := drvdata_axi st;
                                         trig_refs := 1 |}
        /\ iio_trigger_list w' = iio_trigger_list w ++ [trig]
        /\ axi_spi_engine_offload_pwm_trigger_get_rate trig w' = Some (1000, w'))
  \/ (r <> 0 /\ iio_trigger_list w' = iio_trigger_list w).
Proof.
  unfold axi_offload_pwm_trigger_probe, devm_pwm_get, devm_iio_dmaengine_buffer_alloc,
    devm_iio_trigger_alloc, dev_err_probe.
  destruct (kzalloc_ok env pdev); kwstep;
    [|intros [= <- <-]; right; split; [discriminate|reflexivity]].
  destruct (pwm_of env pdev) as [e|pwm] eqn:Hpwm; kwstep;
    [intros [= <- <-]; right; split; [discriminate|reflexivity]|].
  destruct (dma_buffer_of env pdev "rx") as [e|buffer] eqn:Hbuffer; kwstep;
    [intros [= <- <-]; right; split; [discriminate|reflexivity]|].
  destruct (trigger_alloc_ok env pdev); kwstep;
    [|intros [= <- <-]; right; split; [discriminate|reflexivity]].
  unfold update_trigger. kwstep.
  rewrite lookup_snoc_new. kwstep.
  match goal with
  | |- match axi_spi_engine_offload_set_samp_freq _ _ _ ?W with _ => _ end = _ -> _ =>
      remember W as w0 eqn:Hw0
  end.
  assert (Htriggers : triggers w0 !! List.length (triggers w)
                      = Some {| trig_ops := ops_axi_offload_pwm_trigger;
                                trig_parent := Some pdev;
                                trig_drvdata :=
                                  drvdata_axi {| st_buffer := buffer; st_pwm := pwm |};
                                trig_refs := 1 |}).
  { subst w0. wstep. rewrite insert_snoc_new. apply lookup_snoc_new. }
  assert (Hlist : iio_trigger_list w0 = iio_trigger_list w) by (subst w0; reflexivity).
  assert (Hpwms : pwms w0 = pwms w) by (subst w0; reflexivity).
  assert (Hcalls : calls w0 = calls w ++ [call_devm_pwm_get pdev;
                                          call_devm_iio_dmaengine_buffer_alloc pdev "rx";
                                          call_devm_iio_trigger_alloc pdev]).
  { subst w0. wstep. rewrite <- !app_assoc. reflexivity. }
  clear Hw0.
  destruct (pwms w0 !! pwm) as [p|] eqn:Hp.
  2: { unfold axi_spi_engine_offload_set_samp_freq, st_field, pwm_config.
       kwstep. rewrite Hp. discriminate. }
  rewrite (set_samp_freq_run env {| st_buffer := buffer; st_pwm := pwm |} p w0 1000
             ltac:(lia) Hp).
  change (DIV_ROUND_UP NSEC_PER_SEC 1000) with 1000000. cbn [st_pwm].
  destruct (pwm_apply_status env pwm 10 1000000 =? 0) eqn:Hconfig; kwstep.
  2: { intros [= <- <-]. right. split; [apply Z.eqb_neq, Hconfig|exact Hlist]. }
  apply Z.eqb_eq in Hconfig.
  unfold pwm_enable. kwstep. rewrite lookup_insert_eq. kwstep.
  destruct (pwm_enable_status env pwm =? 0) eqn:Henable; kwstep.
  2: { rewrite Henable. kwstep.
       intros [= <- <-]. right. split; [apply Z.eqb_neq, Henable|exact Hlist]. }
  apply Z.eqb_eq in Henable.
  unfold devm_add_action_or_reset. kwstep.
  destruct (add_action_status env pdev _ =? 0) eqn:Haction; kwstep.
  2: { unfold run_action, axi_offload_pwm_trigger_pwm_disable, pwm_disable.
       kwstep. rewrite lookup_insert_eq. kwstep. rewrite Haction. kwstep.
       intros [= <- <-]. right. split; [apply Z.eqb_neq, Haction|exact Hlist]. }
  unfold devm_iio_trigger_register. kwstep.
  destruct (trigger_register_status env pdev _ =? 0) eqn:Hregister; kwstep.
  2: { intros [= <- <-]. right. split; [apply Z.eqb_neq, Hregister|exact Hlist]. }
  intros [= <- <-]. left. split; [reflexivity|].
  exists pwm, buffer, p. cbv zeta.
  split; [reflexivity|]. split; [reflexivity|].
  split; [rewrite <- Hpwms; exact Hp|].
  split; [exact Hconfig|]. split; [exact Henable|].
  split; [wstep; rewrite Hcalls, <- !app_assoc; reflexivity|].
  assert (Hfinal : forall m : gmap nat pwm_device,
             <[pwm := set_enabled true {| pwm_period := 1000000; pwm_duty_cycle := 10;
                                          pwm_enabled := pwm_enabled p |}]>
               (<[pwm := {| pwm_period := 1000000; pwm_duty_cycle := 10;
                            pwm_enabled := pwm_enabled p |}]> m) !! pwm
             = Some {| pwm_period := 1000000; pwm_duty_cycle := 10;
                       pwm_enabled := true |}).
  { intros m. rewrite lookup_insert_eq. reflexivity. }
  split; [wstep; apply Hfinal|].
  split; [wstep; exact Htriggers|].
  split; [wstep; rewrite Hlist; reflexivity|].
  erewrite get_rate_run with (p := {| pwm_period := 1000000; pwm_duty_cycle := 10;
                                      pwm_enabled := true |});
    [reflexivity | wstep; exact Htriggers | reflexivity | wstep; apply Hfinal
    | unfold Int.is_u64; cbn [pwm_period]; lia].
Qed.

Lemma probe_sets_default_rate_then_registers_witness :
  axi_offload_pwm_trigger_probe Scenario.env_ok 3%nat Scenario.w_boot
    = Some (0, Scenario.w_after_probe)
  /\ ((0 = 0
       /\ exists pwm buffer p,
            pwm_of Scenario.env_ok 3%nat = Ok pwm
            /\ dma_buffer_of Scenario.env_ok 3%nat "rx" = Ok buffer
            /\ pwms Scenario.w_boot !! pwm = Some p
            /\ pwm_apply_status Scenario.env_ok pwm 10 1000000 = 0
            /\ pwm_enable_status Scenario.env_ok pwm = 0
            /\ calls Scenario.w_after_probe =
                 calls Scenario.w_boot
                   ++ [call_devm_pwm_get 3%nat;
                       call_devm_iio_dmaengine_buffer_alloc 3%nat "rx";
                       call_devm_iio_trigger_alloc 3%nat;
                       call_pwm_config pwm 10 1000000;
                       call_pwm_enable pwm;
                       call_devm_add_action 3%nat
                         (Action fn_offload_pwm_trigger_pwm_disable pwm);
                       call_devm_iio_trigger_register 3%nat 0%nat]
            /\ pwms Scenario.w_after_probe !! pwm
               = Some {| pwm_period := 1000000; pwm_duty_cycle := 10;
                         pwm_enabled := true |}
            /\ triggers Scenario.w_after_probe !! 0%nat
               = Some {| trig_ops := ops_axi_offload_pwm_trigger;
                         trig_parent := Some 3%nat;
                         trig_drvdata :=
                           drvdata_axi {| st_buffer := buffer; st_pwm := pwm |};
                         trig_refs := 1 |}
            /\ iio_trigger_list Scenario.w_after_probe
               = iio_trigger_list Scenario.w_boot ++ [0%nat]
            /\ axi_spi_engine_offload_pwm_trigger_get_rate 0%nat Scenario.w_after_probe
               = Some (1000, Scenario.w_after_probe))
      \/ (0 <> 0
          /\ iio_trigger_list Scenario.w_after_probe = iio_trigger_list Scenario.w_boot)).
Proof.
  split; [vm_compute; reflexivity|].
  apply (probe_sets_default_rate_then_registers Scenario.env_ok 3%nat Scenario.w_boot
           0 Scenario.w_after_probe).
  vm_compute. reflexivity.
Defined.

(** * Further properties of the driver *)

(** ** Discovery, every outcome *)

Lemma find_by_parent_registered ts l parent t :
  find_by_parent ts l parent = Some t ->
  In t l /\ exists tr, ts !! t = Some tr /\ trig_parent tr = Some parent.
Proof.
  induction l as [|t' l IH]; cbn [find_by_parent]; [discriminate|].
  destruct (ts !! t') as [tr|] eqn:Ht'.
  - destruct (decide (trig_parent tr = Some parent)) as [Hp|Hp].
    + intros [= <-]. split; [left; reflexivity|eauto].
    + intros H. destruct (IH H) as [Hin Htr]. split; [right; exact Hin|exact Htr].
  - intros H. destruct (IH H) as [Hin Htr]. split; [right; exact Hin|exact Htr].
Qed.

(** What discovery returns and the state it leaves, outcome by outcome. *)
Lemma get_optional_cases env dev w :
  let w1 := log (call_device_property_present dev "adi,offloads") w in
  let w2 := log (call_fwnode_find_reference (fwnode_of env dev) "adi,offloads" 0) w1 in
  let run := devm_axi_spi_engine_offload_pwm_trigger_get_optional env dev w in
  (property_present env dev "adi,offloads" = false /\ run = Some (NULL, w1))
  \/ (property_present env dev "adi,offloads" = true
      /\ ((exists e,
             reference_target env (fwnode_of env dev) "adi,offloads" 0 = Err e
             /\ run = Some (ERR_PTR (Z.neg e), w2))
          \/ exists offload,
               reference_target env (fwnode_of env dev) "adi,offloads" 0 = Ok offload
               /\ let w3 := log (call_bus_find_device_by_fwnode offload) w2 in
                  ((exists e,
                      platform_device_of env offload = ERR_PTR e
                      /\ run = Some (ERR_PTR e, w3))
                   \/ (platform_device_of env offload = NULL
                       /\ run = Some (ERR_PTR (- EPROBE_DEFER), w3))
                   \/ exists offload_dev,
                        platform_device_of env offload = PTR offload_dev
                        /\ let w4 := log (call_iio_trigger_acquire_by_parent offload_dev) w3 in
                           ((find_by_parent (triggers w) (iio_trigger_list w) offload_dev = None
                             /\ run = Some (ERR_PTR (- EPROBE_DEFER), w4))
                            \/ exists trig tr,
                                 find_by_parent (triggers w) (iio_trigger_list w) offload_dev
                                   = Some trig
                                 /\ In trig (iio_trigger_list w)
                                 /\ triggers w !! trig = Some tr
                                 /\ trig_parent tr = Some offload_dev
                                 /\ let release := Action fn_offload_pwm_trigger_release trig in
                                    let w5 := log (call_devm_add_action dev release)
                                                (set_triggers (<[trig := with_refs S tr]>) w4) in
                                    run =
                                      if add_action_status env dev release =? 0 then
                                        Some (if decide (trig_ops tr <> ops_axi_offload_pwm_trigger)
                                              then ERR_PTR (- EINVAL) else PTR trig,
                                              set_devres (<[dev := release :: devres_of w dev]>) w5)
                                      else
                                        Some (ERR_PTR (add_action_status env dev release),
                                              set_triggers (fun _ => triggers w)
                                                (log (call_iio_trigger_put trig) w5)))))).
Proof.
  intros w1 w2 run.
  destruct (property_present env dev "adi,offloads") eqn:Hpresent.
  2: { left. split; [reflexivity|]. subst run w1.
       unfold devm_axi_spi_engine_offload_pwm_trigger_get_optional, device_property_present.
       kwstep. rewrite Hpresent. reflexivity. }
  right. split; [reflexivity|].
  destruct (reference_target env (fwnode_of env dev) "adi,offloads" 0)
    as [e|offload] eqn:Href.
  { left. exists e. split; [reflexivity|]. subst run w2 w1.
    unfold devm_axi_spi_engine_offload_pwm_trigger_get_optional, device_property_present,
      fwnode_find_reference, dev_fwnode.
    kwstep. rewrite Hpresent. kwstep. rewrite Href. reflexivity. }
  right. exists offload. split; [reflexivity|]. intros w3.
  assert (Hrun : run = match platform_device_of env offload with
                       | ERR_PTR e => Some (ERR_PTR e, w3)
                       | NULL => Some (ERR_PTR (- EPROBE_DEFER), w3)
                       | PTR offload_dev =>
                           match find_by_parent (triggers w) (iio_trigger_list w) offload_dev with
                           | None => Some (ERR_PTR (- EPROBE_DEFER),
                                           log (call_iio_trigger_acquire_by_parent offload_dev) w3)
                           | Some _ => run
                           end
                       end).
  { subst run w3 w2 w1.
    destruct (platform_device_of env offload) as [e| |offload_dev] eqn:Hdev.
    - unfold devm_axi_spi_engine_offload_pwm_trigger_get_optional, device_property_present,
        fwnode_find_reference, bus_find_device_by_fwnode, dev_fwnode.
      kwstep. rewrite Hpresent. kwstep. rewrite Href. kwstep. rewrite Hdev. reflexivity.
    - unfold devm_axi_spi_engine_offload_pwm_trigger_get_optional, device_property_present,
        fwnode_find_reference, bus_find_device_by_fwnode, dev_fwnode.
      kwstep. rewrite Hpresent. kwstep. rewrite Href. kwstep. rewrite Hdev. reflexivity.
    - destruct (find_by_parent (triggers w) (iio_trigger_list w) offload_dev) eqn:Hfound;
        [reflexivity|].
      unfold devm_axi_spi_engine_offload_pwm_trigger_get_optional, device_property_present,
        fwnode_find_reference, bus_find_device_by_fwnode, dev_fwnode,
        iio_trigger_acquire_by_parent.
      kwstep. rewrite Hpresent. kwstep. rewrite Href. kwstep. rewrite Hdev. kwstep.
      rewrite Hfound. reflexivity. }
  destruct (platform_device_of env offload) as [e| |offload_dev] eqn:Hdev.
  - left. exists e. split; [reflexivity|exact Hrun].
  - right. left. split; [reflexivity|exact Hrun].
  - right. right. exists offload_dev. split; [reflexivity|]. intros w4.
    destruct (find_by_parent (triggers w) (iio_trigger_list w) offload_dev)
      as [trig|] eqn:Hfound.
    + right. destruct (find_by_parent_registered _ _ _ _ Hfound) as (Hin & tr & Htr & Hparent).
      exists trig, tr. split; [reflexivity|]. split; [exact Hin|].
      split; [exact Htr|]. split; [exact Hparent|].
      exact (get_optional_acquired env dev w offload offload_dev trig tr
               Hpresent Href Hdev Hfound Htr).
    + left. split; [reflexivity|exact Hrun].
Qed.

Ltac get_optional_outcomes env dev w :=
  let Hc := fresh "Hc" in
  pose proof (get_optional_cases env dev w) as Hc; cbv zeta in Hc;
  destruct Hc as
    [ [Hpresent Hrun]
    | [Hpresent
         [ (e & Href & Hrun)
         | (offload & Href &
              [ (e & Hdev & Hrun)
              | [ (Hdev & Hrun)
                | (offload_dev & Hdev &
                     [ (Hfound & Hrun)
                     | (trig0 & tr & Hfound & Hin & Htr & Hparent & Hrun) ]) ] ]) ] ] ].

(** X1. A reference that cannot be resolved, and an error pointer from the
    bus lookup, are returned as they are; discovery stops there: the
    trigger list is not queried, no reference is taken and nothing is
    registered. *)
Theorem get_optional_propagates_resolution_errors env dev w :
  property_present env dev "adi,offloads" = true ->
  (forall e,
     reference_target env (fwnode_of env dev) "adi,offloads" 0 = Err e ->
     exists w',
       devm_axi_spi_engine_offload_pwm_trigger_get_optional env dev w
         = Some (ERR_PTR (Z.neg e), w')
       /\ calls w' = calls w ++ [call_device_property_present dev "adi,offloads";
                                 call_fwnode_find_reference (fwnode_of env dev)
                                   "adi,offloads" 0]
       /\ triggers w' = triggers w /\ devres w' = devres w)
  /\ (forall offload e,
        reference_target env (fwnode_of env dev) "adi,offloads" 0 = Ok offload ->
        platform_device_of env offload = ERR_PTR e ->
        exists w',
          devm_axi_spi_engine_offload_pwm_trigger_get_optional env dev w
            = Some (ERR_PTR e, w')
          /\ calls w' = calls w ++ [call_device_property_present dev "adi,offloads";
                                    call_fwnode_find_reference (fwnode_of env dev)
                                      "adi,offloads" 0;
                                    call_bus_find_device_by_fwnode offload]
          /\ triggers w' = triggers w /\ devres w' = devres w).
Proof.
  intros Hp. split.
  - intros e0 Href0. get_optional_outcomes env dev w; try congruence.
    assert (e = e0) as -> by congruence.
    eexists. split; [exact Hrun|]. wstep.
    split; [rewrite <- !app_assoc; reflexivity|]. split; reflexivity.
  - intros offload0 e0 Href0 Hdev0. get_optional_outcomes env dev w; try congruence.
    assert (offload = offload0) as -> by congruence.
    assert (e = e0) as -> by congruence.
    eexists. split; [exact Hrun|]. wstep.
    split; [rewrite <- !app_assoc; reflexivity|]. split; reflexivity.
Qed.

Lemma get_optional_propagates_resolution_errors_witness :
  exists w',
    devm_axi_spi_engine_offload_pwm_trigger_get_optional
      Faults.env_malformed 9%nat Scenario.w_probed = Some (ERR_PTR (-22), w')
    /\ calls w' = calls Scenario.w_probed
                  ++ [call_device_property_present 9%nat "adi,offloads";
                      call_fwnode_find_reference 9%nat "adi,offloads" 0]
    /\ triggers w' = triggers Scenario.w_probed
    /\ devres w' = devres Scenario.w_probed.
Proof.
  apply (proj1 (get_optional_propagates_resolution_errors
                  Faults.env_malformed 9%nat Scenario.w_probed eq_refl) 22%positive).
  reflexivity.
Defined.

(** X2. Discovery hands out a trigger only when it is registered, its
    parent is the device the "adi,offloads" reference resolves to, and its
    operations are this driver's; the caller then holds one more reference
    on it and the matching release heads the consumer's managed actions. *)
Theorem get_optional_returns_registered_own_trigger env dev w trig w' :
  devm_axi_spi_engine_offload_pwm_trigger_get_optional env dev w = Some (PTR trig, w') ->
  exists offload offload_dev tr,
    property_present env dev "adi,offloads" = true
    /\ reference_target env (fwnode_of env dev) "adi,offloads" 0 = Ok offload
    /\ platform_device_of env offload = PTR offload_dev
    /\ In trig (iio_trigger_list w)
    /\ triggers w !! trig = Some tr
    /\ trig_parent tr = Some offload_dev
    /\ trig_ops tr = ops_axi_offload_pwm_trigger
    /\ trigger_refs w' trig = Some (S (trig_refs tr))
    /\ devres_of w' dev = Action fn_offload_pwm_trigger_release trig :: devres_of w dev.
Proof.
  intros Hget. get_optional_outcomes env dev w; rewrite Hrun in Hget; try discriminate.
  destruct (add_action_status env dev _ =? 0) eqn:Hstatus; [|discriminate].
  destruct (decide (trig_ops tr <> ops_axi_offload_pwm_trigger)) as [Hops|Hops];
    [discriminate|].
  injection Hget as Htrig Hw'. subst trig0 w'.
  exists offload, offload_dev, tr.
  split; [exact Hpresent|]. split; [exact Href|]. split; [exact Hdev|].
  split; [exact Hin|]. split; [exact Htr|]. split; [exact Hparent|].
  split; [destruct (decide (trig_ops tr = ops_axi_offload_pwm_trigger)); tauto|].
  split.
  - wstep. rewrite (lookup_updated _ _ _ _ Htr). reflexivity.
  - wstep. rewrite lookup_insert_eq. reflexivity.
Qed.

Lemma get_optional_returns_registered_own_trigger_witness :
  exists w' offload offload_dev tr,
    devm_axi_spi_engine_offload_pwm_trigger_get_optional
      Scenario.env_ok 9%nat Scenario.w_probed = Some (PTR 0%nat, w')
    /\ property_present Scenario.env_ok 9%nat "adi,offloads" = true
    /\ reference_target Scenario.env_ok (fwnode_of Scenario.env_ok 9%nat)
         "adi,offloads" 0 = Ok offload
    /\ platform_device_of Scenario.env_ok offload = PTR offload_dev
    /\ In 0%nat (iio_trigger_list Scenario.w_probed)
    /\ triggers Scenario.w_probed !! 0%nat = Some tr
    /\ trig_parent tr = Some offload_dev
    /\ trig_ops tr = ops_axi_offload_pwm_trigger
    /\ trigger_refs w' 0%nat = Some (S (trig_refs tr))
    /\ devres_of w' 9%nat
       = Action fn_offload_pwm_trigger_release 0%nat :: devres_of Scenario.w_probed 9%nat.
Proof.
  let run := eval vm_compute in
    (devm_axi_spi_engine_offload_pwm_trigger_get_optional
       Scenario.env_ok 9%nat Scenario.w_probed) in
  match run with
  | Some (_, ?w') =>
      assert (Hrun : devm_axi_spi_engine_offload_pwm_trigger_get_optional
                       Scenario.env_ok 9%nat Scenario.w_probed = Some (PTR 0%nat, w'))
        by (vm_compute; reflexivity);
      destruct (get_optional_returns_registered_own_trigger _ _ _ _ _ Hrun)
        as (offload & offload_dev & tr & Hfacts);
      exists w', offload, offload_dev, tr; split; [exact Hrun|exact Hfacts]
  end.
Defined.


(** X4. The offload ID of a trigger that discovery returned is the [id] of
    the device the consumer's "adi,offloads" reference resolves to. *)
Theorem get_offload_id_of_discovered_trigger env device_id dev w trig w' :
  devm_axi_spi_engine_offload_pwm_trigger_get_optional env dev w = Some (PTR trig, w') ->
  exists offload offload_dev,
    reference_target env (fwnode_of env dev) "adi,offloads" 0 = Ok offload
    /\ platform_device_of env offload = PTR offload_dev
    /\ axi_spi_engine_offload_pwm_trigger_get_offload_id device_id trig w'
       = Some (Int.u32 (device_id offload_dev), w').
Proof.
  intros Hget. get_optional_outcomes env dev w; rewrite Hrun in Hget; try discriminate.
  destruct (add_action_status env dev _ =? 0) eqn:Hstatus; [|discriminate].
  destruct (decide (trig_ops tr <> ops_axi_offload_pwm_trigger)) as [Hops|Hops];
    [discriminate|].
  injection Hget as Htrig Hw'. subst trig0 w'.
  exists offload, offload_dev. split; [exact Href|]. split; [exact Hdev|].
  unfold axi_spi_engine_offload_pwm_trigger_get_offload_id.
  kwstep. rewrite (lookup_updated _ _ _ _ Htr). kwstep. rewrite Hparent. reflexivity.
Qed.

Lemma get_offload_id_of_discovered_trigger_witness :
  exists w' offload offload_dev,
    devm_axi_spi_engine_offload_pwm_trigger_get_optional
      Scenario.env_ok 9%nat Scenario.w_probed = Some (PTR 0%nat, w')
    /\ reference_target Scenario.env_ok (fwnode_of Scenario.env_ok 9%nat)
         "adi,offloads" 0 = Ok offload
    /\ platform_device_of Scenario.env_ok offload = PTR offload_dev
    /\ axi_spi_engine_offload_pwm_trigger_get_offload_id
         (fun d => Z.of_nat d + 100) 0%nat w'
       = Some (Int.u32 (Z.of_nat offload_dev + 100), w').
Proof.
  let run := eval vm_compute in
    (devm_axi_spi_engine_offload_pwm_trigger_get_optional
       Scenario.env_ok 9%nat Scenario.w_probed) in
  match run with
  | Some (_, ?w') =>
      assert (Hrun : devm_axi_spi_engine_offload_pwm_trigger_get_optional
                       Scenario.env_ok 9%nat Scenario.w_probed = Some (PTR 0%nat, w'))
        by (vm_compute; reflexivity);
      destruct (get_offload_id_of_discovered_trigger _ (fun d => Z.of_nat d + 100)
                  _ _ _ _ Hrun) as (offload & offload_dev & Hfacts);
      exists w', offload, offload_dev; split; [exact Hrun|exact Hfacts]
  end.
Defined.

(** ** Discovery, attachment and the consumer's teardown *)



(** ** Rate control, bounds *)

(** X6. For every nonzero rate the period handed to [pwm_config] lies
    between 1 ns and 10^9 ns, so it is never zero or negative.  The fixed
    duty cycle of 10 ns fits into that period exactly for rates up to
    111,111,111 Hz; above that the call asks for a duty cycle longer than
    the period. *)
Theorem set_samp_freq_period_range env st p w requested_hz :
  0 < requested_hz < 2 ^ 32 ->
  pwms w !! st_pwm st = Some p ->
  exists period_ns w',
    axi_spi_engine_offload_set_samp_freq env (drvdata_axi st) requested_hz w
      = Some (pwm_apply_status env (st_pwm st) 10 period_ns, w')
    /\ calls w' = calls w ++ [call_pwm_config (st_pwm st) 10 period_ns]
    /\ 1 <= period_ns <= 10 ^ 9
    /\ (10 <= period_ns <-> requested_hz <= 111111111).
Proof.
  intros Hhz Hp.
  pose proof (set_samp_freq_run env st p w requested_hz Hhz Hp) as Hrun.
  cbv zeta in Hrun.
  pose proof (DIV_ROUND_UP_ceil NSEC_PER_SEC requested_hz ltac:(lia)) as Hceil.
  pose proof (period_of_u32_rate requested_hz Hhz) as Hrange.
  set (period_ns := DIV_ROUND_UP NSEC_PER_SEC requested_hz) in *.
  exists period_ns. eexists. split; [exact Hrun|].
  split; [destruct (pwm_apply_status env (st_pwm st) 10 period_ns =? 0); reflexivity|].
  unfold NSEC_PER_SEC in *. split; [lia|]. split; intros H.
  - assert (9 * requested_hz <= (period_ns - 1) * requested_hz)
      by (apply Z.mul_le_mono_nonneg_r; lia).
    lia.
  - destruct (Z_lt_le_dec period_ns 10) as [Hshort|]; [|lia].
    assert (period_ns * requested_hz <= 9 * requested_hz)
      by (apply Z.mul_le_mono_nonneg_r; lia).
    lia.
Qed.

Lemma set_samp_freq_period_range_witness :
  exists period_ns w',
    axi_spi_engine_offload_set_samp_freq Faults.env_pwm_checks
      (drvdata_axi {| st_buffer := 5; st_pwm := 0 |}) 200000000 Scenario.w_probed
      = Some (pwm_apply_status Faults.env_pwm_checks 0%nat 10 period_ns, w')
    /\ calls w' = calls Scenario.w_probed ++ [call_pwm_config 0%nat 10 period_ns]
    /\ 1 <= period_ns <= 10 ^ 9
    /\ (10 <= period_ns <-> 200000000 <= 111111111).
Proof.
  apply (set_samp_freq_period_range Faults.env_pwm_checks
           {| st_buffer := 5; st_pwm := 0 |}
           {| pwm_period := 1000000; pwm_duty_cycle := 10; pwm_enabled := true |}
           Scenario.w_probed 200000000).
  - lia.
  - reflexivity.
Defined.

Lemma read_back_bounds f period r :
  0 < f ->
  (period - 1) * f < 10 ^ 9 <= period * f ->
  (2 * r - 1) * period <= 2 * 10 ^ 9 < (2 * r + 1) * period ->
  1 <= r <= f /\ r <= 10 ^ 9 /\ (f <= 22360 -> r = f).
Proof.
  intros Hf Hceil Hround.
  assert (Hperiod : 1 <= period) by nia.
  assert (Hlow : 1 <= r) by nia.
  assert (Hhigh : r <= f).
  { destruct (Z_lt_le_dec f r) as [Hgt|]; [|lia].
    assert ((2 * f + 1) * period <= (2 * r - 1) * period) by nia. nia. }
  split; [lia|]. split; [nia|].
  intros Hsmall.
  destruct (Z_lt_le_dec r f) as [Hlt|]; [|lia].
  assert (Hwide : 2 * f <= period) by nia.
  assert ((2 * r + 1) * period <= (2 * f - 1) * period) by nia.
  nia.
Qed.

(** X7. After [set_samp_freq] with a rate that the PWM accepted,
    [get_rate] reads back a rate that is at least 1 Hz, at most 10^9 Hz and
    never more than the rate requested; for requests up to 22,360 Hz it
    reads back exactly the rate requested. *)
Theorem get_rate_after_set_never_exceeds_request env w trig tr st p f w' :
  triggers w !! trig = Some tr ->
  trig_drvdata tr = drvdata_axi st ->
  pwms w !! st_pwm st = Some p ->
  0 < f < 2 ^ 32 ->
  axi_spi_engine_offload_set_samp_freq env (drvdata_axi st) f w = Some (0, w') ->
  exists r,
    axi_spi_engine_offload_pwm_trigger_get_rate trig w' = Some (r, w')
    /\ 1 <= r <= f
    /\ r <= 10 ^ 9
    /\ (f <= 22360 -> r = f).
Proof.
  intros Htr Hst Hp Hf Hset.
  rewrite (set_samp_freq_run env st p w f Hf Hp) in Hset.
  injection Hset as Hstatus Hw'. rewrite Hstatus in Hw'. cbn [Z.eqb] in Hw'.
  pose proof (DIV_ROUND_UP_ceil NSEC_PER_SEC f ltac:(lia)) as Hceil.
  pose proof (period_of_u32_rate f Hf) as Hperiod.
  set (period := DIV_ROUND_UP NSEC_PER_SEC f) in *.
  assert (Hround : (2 * DIV_ROUND_CLOSEST_ULL NSEC_PER_SEC period - 1) * period
                   <= 2 * 10 ^ 9
                   < (2 * DIV_ROUND_CLOSEST_ULL NSEC_PER_SEC period + 1) * period).
  { apply (DIV_ROUND_CLOSEST_ULL_round NSEC_PER_SEC period);
      unfold NSEC_PER_SEC in *; lia. }
  exists (DIV_ROUND_CLOSEST_ULL NSEC_PER_SEC period).
  split; [|exact (read_back_bounds f period _ (proj1 Hf) Hceil Hround)].
  subst w'.
  rewrite (get_rate_run _ trig tr st
             {| pwm_period := period; pwm_duty_cycle := 10;
                pwm_enabled := pwm_enabled p |}).
  - cbn [pwm_period].
    destruct (period =? 0) eqn:Hzero; [apply Z.eqb_eq in Hzero; lia|reflexivity].
  - wstep. exact Htr.
  - exact Hst.
  - wstep. apply lookup_insert_eq.
  - cbn [pwm_period]. unfold Int.is_u64, NSEC_PER_SEC in *. lia.
Qed.

Lemma get_rate_after_set_never_exceeds_request_witness :
  exists w' r,
    axi_spi_engine_offload_set_samp_freq Scenario.env_ok
      (drvdata_axi {| st_buffer := 5; st_pwm := 0 |}) 22360 Scenario.w_probed
      = Some (0, w')
    /\ axi_spi_engine_offload_pwm_trigger_get_rate 0%nat w' = Some (r, w')
    /\ 1 <= r <= 22360
    /\ r <= 10 ^ 9
    /\ (22360 <= 22360 -> r = 22360).
Proof.
  let run := eval vm_compute in
    (axi_spi_engine_offload_set_samp_freq Scenario.env_ok
       (drvdata_axi {| st_buffer := 5; st_pwm := 0 |}) 22360 Scenario.w_probed) in
  match run with
  | Some (_, ?w') =>
      assert (Hset : axi_spi_engine_offload_set_samp_freq Scenario.env_ok
                       (drvdata_axi {| st_buffer := 5; st_pwm := 0 |}) 22360
                       Scenario.w_probed = Some (0, w'))
        by (vm_compute; reflexivity);
      destruct (get_rate_after_set_never_exceeds_request Scenario.env_ok
                  Scenario.w_probed 0%nat
                  {| trig_ops := ops_axi_offload_pwm_trigger; trig_parent := Some 3%nat;
                     trig_drvdata := drvdata_axi {| st_buffer := 5; st_pwm := 0 |};
                     trig_refs := 1 |}
                  {| st_buffer := 5; st_pwm := 0 |}
                  {| pwm_period := 1000000; pwm_duty_cycle := 10; pwm_enabled := true |}
                  22360 w' eq_refl eq_refl eq_refl ltac:(lia) Hset)
        as (r & Hfacts);
      exists w', r; split; [exact Hset|exact Hfacts]
  end.
Defined.

(** ** The rate attribute, accepted writes *)

Lemma kstrtou32_range buf val :
  Kstrtox.kstrtou32 buf = inr val -> 0 <= val < 2 ^ 32.
Proof.
  unfold Kstrtox.kstrtou32.
  destruct (Kstrtox.kstrtoull buf) as [e|tmp]; [discriminate|].
  destruct (tmp =? Int.u32 tmp) eqn:Hfits; [|discriminate].
  intros [= <-]. apply Z.eqb_eq in Hfits. rewrite Hfits. unfold Int.u32.
  apply Z.mod_pos_bound. lia.
Qed.

(** X8. A write whose payload parses to a nonzero number makes exactly one
    [pwm_config] call, with duty cycle 10 and period [ceil (10^9 / val)].
    If the PWM accepts it the write returns the payload's length and the
    PWM records that period; if the PWM refuses, the write returns the
    PWM's error and the PWM's state is as before.  In neither case does the
    write start or stop the PWM. *)
Theorem sampling_frequency_store_sets_rate env trig tr st p buf len val w :
  triggers w !! trig = Some tr ->
  trig_drvdata tr = drvdata_axi st ->
  pwms w !! st_pwm st = Some p ->
  Kstrtox.kstrtou32 buf = inr val ->
  val <> 0 ->
  let pwm := st_pwm st in
  let period_ns := DIV_ROUND_UP NSEC_PER_SEC val in
  let status := pwm_apply_status env pwm 10 period_ns in
  exists w' p',
    sampling_frequency_store env trig buf len w
      = Some (if status =? 0 then len else status, w')
    /\ calls w' = calls w ++ [call_pwm_config pwm 10 period_ns]
    /\ (period_ns - 1) * val < 10 ^ 9 <= period_ns * val
    /\ pwms w' !! pwm = Some p'
    /\ pwm_enabled p' = pwm_enabled p
    /\ (status = 0 -> pwm_period p' = period_ns /\ pwm_duty_cycle p' = 10)
    /\ (status <> 0 -> p' = p /\ pwms w' = pwms w).
Proof.
  intros Htr Hst Hp Hparse Hnonzero pwm period_ns status.
  pose proof (kstrtou32_range buf val Hparse) as Hrange.
  assert (Hhz : 0 < val < 2 ^ 32) by lia.
  pose proof (set_samp_freq_run env st p w val Hhz Hp) as Hrun. cbv zeta in Hrun.
  fold pwm period_ns status in Hrun.
  unfold sampling_frequency_store, iio_trigger_get_drvdata.
  kwstep. rewrite Htr. kwstep. rewrite Hparse, Hst, Hrun. kwstep.
  destruct (status =? 0) eqn:Hstatus; kwstep.
  - apply Z.eqb_eq in Hstatus.
    eexists _, _. split; [reflexivity|]. split; [reflexivity|].
    split; [apply (DIV_ROUND_UP_ceil NSEC_PER_SEC val); lia|].
    split; [wstep; apply lookup_insert_eq|].
    split; [reflexivity|]. split; [intros _; split; reflexivity|congruence].
  - apply Z.eqb_neq in Hstatus.
    exists (log (call_pwm_config pwm 10 period_ns) w), p.
    split; [reflexivity|]. split; [reflexivity|].
    split; [apply (DIV_ROUND_UP_ceil NSEC_PER_SEC val); lia|].
    split; [exact Hp|]. split; [reflexivity|].
    split; [congruence|intros _; split; reflexivity].
Qed.

Lemma sampling_frequency_store_sets_rate_witness :
  (exists w' p',
     sampling_frequency_store Faults.env_pwm_checks 0%nat "500" 3 Scenario.w_probed
       = Some (3, w')
     /\ calls w' = calls Scenario.w_probed ++ [call_pwm_config 0%nat 10 2000000]
     /\ (2000000 - 1) * 500 < 10 ^ 9 <= 2000000 * 500
     /\ pwms w' !! 0%nat = Some p'
     /\ pwm_enabled p' = true
     /\ (0 = 0 -> pwm_period p' = 2000000 /\ pwm_duty_cycle p' = 10)
     /\ (0 <> 0 -> p' = {| pwm_period := 1000000; pwm_duty_cycle := 10;
                           pwm_enabled := true |}
                   /\ pwms w' = pwms Scenario.w_probed))
  /\ (exists w' p',
        sampling_frequency_store Faults.env_pwm_checks 0%nat "200000000" 9
          Scenario.w_probed = Some (- EINVAL, w')
        /\ calls w' = calls Scenario.w_probed ++ [call_pwm_config 0%nat 10 5]
        /\ (5 - 1) * 200000000 < 10 ^ 9 <= 5 * 200000000
        /\ pwms w' !! 0%nat = Some p'
        /\ pwm_enabled p' = true
        /\ (- EINVAL = 0 -> pwm_period p' = 5 /\ pwm_duty_cycle p' = 10)
        /\ (- EINVAL <> 0 -> p' = {| pwm_period := 1000000; pwm_duty_cycle := 10;
                                     pwm_enabled := true |}
                             /\ pwms w' = pwms Scenario.w_probed)).
Proof.
  split.
  - apply (sampling_frequency_store_sets_rate Faults.env_pwm_checks 0%nat
             {| trig_ops := ops_axi_offload_pwm_trigger; trig_parent := Some 3%nat;
                trig_drvdata := drvdata_axi {| st_buffer := 5; st_pwm := 0 |};
                trig_refs := 1 |}
             {| st_buffer := 5; st_pwm := 0 |}
             {| pwm_period := 1000000; pwm_duty_cycle := 10; pwm_enabled := true |}
             "500" 3 500 Scenario.w_probed eq_refl eq_refl eq_refl eq_refl).
    lia.
  - apply (sampling_frequency_store_sets_rate Faults.env_pwm_checks 0%nat
             {| trig_ops := ops_axi_offload_pwm_trigger; trig_parent := Some 3%nat;
                trig_drvdata := drvdata_axi {| st_buffer := 5; st_pwm := 0 |};
                trig_refs := 1 |}
             {| st_buffer := 5; st_pwm := 0 |}
             {| pwm_period := 1000000; pwm_duty_cycle := 10; pwm_enabled := true |}
             "200000000" 9 200000000 Scenario.w_probed eq_refl eq_refl eq_refl eq_refl).
    lia.
Defined.

(** ** Starting and stopping the trigger *)

(** X9. [set_state] with [true] returns the status of [pwm_enable] and
    marks the PWM enabled when that is [0]; with [false] it disables the
    PWM and returns [0] whatever happens.  Neither touches the period or the
    duty cycle, so the rate read back is the same before and after. *)
Theorem set_state_keeps_rate env trig tr st p w :
  triggers w !! trig = Some tr ->
  trig_drvdata tr = drvdata_axi st ->
  pwms w !! st_pwm st = Some p ->
  Int.is_u64 (pwm_period p) ->
  let pwm := st_pwm st in
  exists w_on w_off p_on r,
    axi_offload_pwm_trigger_set_state env trig true w
      = Some (pwm_enable_status env pwm, w_on)
    /\ axi_offload_pwm_trigger_set_state env trig false w = Some (0, w_off)
    /\ pwms w_on !! pwm = Some p_on
    /\ (pwm_enable_status env pwm = 0 -> p_on = set_enabled true p)
    /\ (pwm_enable_status env pwm <> 0 -> p_on = p)
    /\ pwms w_off !! pwm = Some (set_enabled false p)
    /\ axi_spi_engine_offload_pwm_trigger_get_rate trig w = Some (r, w)
    /\ axi_spi_engine_offload_pwm_trigger_get_rate trig w_on = Some (r, w_on)
    /\ axi_spi_engine_offload_pwm_trigger_get_rate trig w_off = Some (r, w_off).
Proof.
  intros Htr Hst Hp Hrange pwm. subst pwm.
  set (pwm := st_pwm st) in *.
  assert (Hoff : axi_offload_pwm_trigger_set_state env trig false w
                 = Some (0, set_pwms (<[pwm := set_enabled false p]>)
                              (log (call_pwm_disable pwm) w))).
  { unfold axi_offload_pwm_trigger_set_state, iio_trigger_get_drvdata, st_field,
      pwm_disable.
    kwstep. rewrite Htr. kwstep. rewrite Hst. kwstep. fold pwm. rewrite Hp. reflexivity. }
  assert (Hon : axi_offload_pwm_trigger_set_state env trig true w
                = Some (pwm_enable_status env pwm,
                        if pwm_enable_status env pwm =? 0
                        then set_pwms (<[pwm := set_enabled true p]>)
                               (log (call_pwm_enable pwm) w)
                        else log (call_pwm_enable pwm) w)).
  { unfold axi_offload_pwm_trigger_set_state, iio_trigger_get_drvdata, st_field,
      pwm_enable.
    kwstep. rewrite Htr. kwstep. rewrite Hst. kwstep. fold pwm. rewrite Hp. kwstep.
    destruct (pwm_enable_status env pwm =? 0) eqn:Hstatus; kwstep; [|reflexivity].
    apply Z.eqb_eq in Hstatus. rewrite Hstatus. reflexivity. }
  eexists _, _, (if pwm_enable_status env pwm =? 0 then set_enabled true p else p), _.
  split; [exact Hon|]. split; [exact Hoff|].
  split; [destruct (pwm_enable_status env pwm =? 0); wstep;
          [apply lookup_insert_eq|exact Hp]|].
  split; [intros ->; reflexivity|].
  split; [intros Hne; apply Z.eqb_neq in Hne; rewrite Hne; reflexivity|].
  split; [wstep; apply lookup_insert_eq|].
  split; [exact (get_rate_run w trig tr st p Htr Hst Hp Hrange)|].
  split.
  - destruct (pwm_enable_status env pwm =? 0).
    + apply (get_rate_run _ trig tr st (set_enabled true p));
        [exact Htr|exact Hst|wstep; apply lookup_insert_eq|exact Hrange].
    + apply (get_rate_run _ trig tr st p); [exact Htr|exact Hst|exact Hp|exact Hrange].
  - apply (get_rate_run _ trig tr st (set_enabled false p));
      [exact Htr|exact Hst|wstep; apply lookup_insert_eq|exact Hrange].
Qed.

Lemma set_state_keeps_rate_witness :
  exists w_on w_off p_on r,
    axi_offload_pwm_trigger_set_state Scenario.env_ok 0%nat true Scenario.w_probed
      = Some (0, w_on)
    /\ axi_offload_pwm_trigger_set_state Scenario.env_ok 0%nat false Scenario.w_probed
       = Some (0, w_off)
    /\ pwms w_on !! 0%nat = Some p_on
    /\ (0 = 0 -> p_on = {| pwm_period := 1000000; pwm_duty_cycle := 10;
                           pwm_enabled := true |})
    /\ (0 <> 0 -> p_on = {| pwm_period := 1000000; pwm_duty_cycle := 10;
                            pwm_enabled := true |})
    /\ pwms w_off !! 0%nat = Some {| pwm_period := 1000000; pwm_duty_cycle := 10;
                                     pwm_enabled := false |}
    /\ axi_spi_engine_offload_pwm_trigger_get_rate 0%nat Scenario.w_probed
       = Some (r, Scenario.w_probed)
    /\ axi_spi_engine_offload_pwm_trigger_get_rate 0%nat w_on = Some (r, w_on)
    /\ axi_spi_engine_offload_pwm_trigger_get_rate 0%nat w_off = Some (r, w_off).
Proof.
  assert (Hrange : Int.is_u64 1000000) by (unfold Int.is_u64; lia).
  exact (set_state_keeps_rate Scenario.env_ok 0%nat
           {| trig_ops := ops_axi_offload_pwm_trigger; trig_parent := Some 3%nat;
              trig_drvdata := drvdata_axi {| st_buffer := 5; st_pwm := 0 |};
              trig_refs := 1 |}
           {| st_buffer := 5; st_pwm := 0 |}
           {| pwm_period := 1000000; pwm_duty_cycle := 10; pwm_enabled := true |}
           Scenario.w_probed eq_refl eq_refl eq_refl Hrange).
Defined.

(** ** Provider initialisation, every outcome *)

(** Where a probe can stop and what it leaves behind: before a trigger
    exists; after the trigger was allocated but with nothing added to the
    provider's managed actions; with the PWM running and its disable action
    registered but the trigger not; or complete. *)
Lemma probe_cases env pdev w r w' :
  axi_offload_pwm_trigger_probe env pdev w = Some (r, w') ->
  (r <> 0 /\ triggers w' = triggers w /\ pwms w' = pwms w /\ devres w' = devres w
   /\ iio_trigger_list w' = iio_trigger_list w)
  \/ exists pwm buffer p,
       pwm_of env pdev = Ok pwm
       /\ dma_buffer_of env pdev "rx" = Ok buffer
       /\ pwms w !! pwm = Some p
       /\ triggers w' =
            triggers w ++ [{| trig_ops := ops_axi_offload_pwm_trigger;
                              trig_parent := Some pdev;
                              trig_drvdata :=
                                drvdata_axi {| st_buffer := buffer; st_pwm := pwm |};
                              trig_refs := 1 |}]
       /\ ((r <> 0 /\ iio_trigger_list w' = iio_trigger_list w /\ devres w' = devres w
            /\ exists p', pwms w' !! pwm = Some p'
                          /\ (pwm_enabled p' = pwm_enabled p \/ pwm_enabled p' = false))
           \/ (r <> 0 /\ iio_trigger_list w' = iio_trigger_list w
               /\ devres_of w' pdev
                  = Action fn_offload_pwm_trigger_pwm_disable pwm :: devres_of w pdev
               /\ pwms w' !! pwm = Some {| pwm_period := 1000000; pwm_duty_cycle := 10;
                                           pwm_enabled := true |})
           \/ (r = 0
               /\ iio_trigger_list w' = iio_trigger_list w ++ [List.length (triggers w)]
               /\ devres_of w' pdev
                  = Action fn_iio_trigger_unregister (List.length (triggers w))
                    :: Action fn_offload_pwm_trigger_pwm_disable pwm :: devres_of w pdev
               /\ pwms w' !! pwm = Some {| pwm_period := 1000000; pwm_duty_cycle := 10;
                                           pwm_enabled := true |})).
Proof.
  unfold axi_offload_pwm_trigger_probe, devm_pwm_get, devm_iio_dmaengine_buffer_alloc,
    devm_iio_trigger_alloc, dev_err_probe.
  destruct (kzalloc_ok env pdev); kwstep;
    [|intros [= <- <-]; left; split; [discriminate|repeat split]].
  destruct (pwm_of env pdev) as [e|pwm] eqn:Hpwm; kwstep;
    [intros [= <- <-]; left; split; [discriminate|repeat split]|].
  destruct (dma_buffer_of env pdev "rx") as [e|buffer] eqn:Hbuffer; kwstep;
    [intros [= <- <-]; left; split; [discriminate|repeat split]|].
  destruct (trigger_alloc_ok env pdev); kwstep;
    [|intros [= <- <-]; left; split; [discriminate|repeat split]].
  unfold update_trigger. kwstep.
  rewrite lookup_snoc_new. kwstep.
  match goal with
  | |- match axi_spi_engine_offload_set_samp_freq _ _ _ ?W with _ => _ end = _ -> _ =>
      remember W as w0 eqn:Hw0
  end.
  assert (Htriggers : triggers w0
                      = triggers w ++ [{| trig_ops := ops_axi_offload_pwm_trigger;
                                          trig_parent := Some pdev;
                                          trig_drvdata :=
                                            drvdata_axi {| st_buffer := buffer;
                                                           st_pwm := pwm |};
                                          trig_refs := 1 |}]).
  { subst w0. wstep. apply insert_snoc_new. }
  assert (Hlist : iio_trigger_list w0 = iio_trigger_list w) by (subst w0; reflexivity).
  assert (Hpwms : pwms w0 = pwms w) by (subst w0; reflexivity).
  assert (Hdevres : devres w0 = devres w) by (subst w0; reflexivity).
  clear Hw0.
  destruct (pwms w0 !! pwm) as [p|] eqn:Hp.
  2: { unfold axi_spi_engine_offload_set_samp_freq, st_field, pwm_config.
       kwstep. rewrite Hp. discriminate. }
  rewrite (set_samp_freq_run env {| st_buffer := buffer; st_pwm := pwm |} p w0 1000
             ltac:(lia) Hp).
  change (DIV_ROUND_UP NSEC_PER_SEC 1000) with 1000000. cbn [st_pwm].
  intros Hprobe. right. exists pwm, buffer, p.
  split; [reflexivity|]. split; [reflexivity|]. split; [rewrite <- Hpwms; exact Hp|].
  revert Hprobe.
  destruct (pwm_apply_status env pwm 10 1000000 =? 0) eqn:Hconfig; kwstep.
  2: { intros [= <- <-]. split; [exact Htriggers|]. left.
       split; [apply Z.eqb_neq, Hconfig|]. split; [exact Hlist|].
       split; [exact Hdevres|]. exists p. split; [exact Hp|left; reflexivity]. }
  unfold pwm_enable. kwstep. rewrite lookup_insert_eq. kwstep.
  destruct (pwm_enable_status env pwm =? 0) eqn:Henable; kwstep.
  2: { rewrite Henable. kwstep.
       intros [= <- <-]. split; [exact Htriggers|]. left.
       split; [apply Z.eqb_neq, Henable|]. split; [exact Hlist|].
       split; [exact Hdevres|]. eexists.
       split; [wstep; apply lookup_insert_eq|left; reflexivity]. }
  unfold devm_add_action_or_reset. kwstep.
  destruct (add_action_status env pdev _ =? 0) eqn:Haction; kwstep.
  2: { unfold run_action, axi_offload_pwm_trigger_pwm_disable, pwm_disable.
       kwstep. rewrite lookup_insert_eq. kwstep. rewrite Haction. kwstep.
       intros [= <- <-]. split; [exact Htriggers|]. left.
       split; [apply Z.eqb_neq, Haction|]. split; [exact Hlist|].
       split; [exact Hdevres|]. eexists.
       split; [wstep; apply lookup_insert_eq|right; reflexivity]. }
  unfold devm_iio_trigger_register. kwstep.
  destruct (trigger_register_status env pdev _ =? 0) eqn:Hregister; kwstep.
  2: { intros [= <- <-]. split; [exact Htriggers|]. right. left.
       split; [apply Z.eqb_neq, Hregister|]. split; [exact Hlist|].
       split; [wstep; rewrite lookup_insert_eq, Hdevres; reflexivity|].
       wstep. apply lookup_insert_eq. }
  intros [= <- <-]. split; [exact Htriggers|]. right. right.
  split; [reflexivity|]. split; [wstep; rewrite Hlist; reflexivity|].
  split; [wstep; rewrite !lookup_insert_eq, Hdevres; reflexivity|].
  wstep. apply lookup_insert_eq.
Qed.

(** X10. However the probe ends, it does not leave a PWM running that it
    found stopped unless the action that stops it again is among the
    provider's managed actions: where the registration of that action
    fails, the PWM has been disabled again by the time the probe returns. *)
Theorem probe_running_pwm_has_disable_action env pdev w r w' pwm p p' :
  axi_offload_pwm_trigger_probe env pdev w = Some (r, w') ->
  pwm_of env pdev = Ok pwm ->
  pwms w !! pwm = Some p ->
  pwm_enabled p = false ->
  pwms w' !! pwm = Some p' ->
  pwm_enabled p' = true ->
  In (Action fn_offload_pwm_trigger_pwm_disable pwm) (devres_of w' pdev).
Proof.
  intros Hprobe Hpwm Hp Hoff Hp' Hon.
  destruct (probe_cases _ _ _ _ _ Hprobe)
    as [(_ & _ & Hpwms & _)|(pwm0 & buffer & p0 & Hpwm0 & _ & Hp0 & _ & Hcases)].
  - rewrite Hpwms in Hp'. congruence.
  - assert (pwm0 = pwm) as -> by congruence.
    assert (p0 = p) as -> by congruence.
    destruct Hcases as [(_ & _ & _ & q & Hq & Henabled)
                       |[(_ & _ & Hactions & _)|(_ & _ & Hactions & _)]].
    + assert (q = p') as -> by congruence. destruct Henabled; congruence.
    + rewrite Hactions. left. reflexivity.
    + rewrite Hactions. right. left. reflexivity.
Qed.

Lemma probe_running_pwm_has_disable_action_witness :
  In (Action fn_offload_pwm_trigger_pwm_disable 0%nat)
     (devres_of Faults.w_register_failed 3%nat).
Proof.
  apply (probe_running_pwm_has_disable_action Faults.env_register_fails 3%nat
           Scenario.w_boot (- ENOMEM) Faults.w_register_failed 0%nat Scenario.pwm_idle
           {| pwm_period := 1000000; pwm_duty_cycle := 10; pwm_enabled := true |});
    vm_compute; reflexivity.
Defined.

(** ** The provider's teardown *)

Lemma devres_of_cons w dev a l :
  devres_of w dev = a :: l -> devres w !! dev = Some (a :: l).
Proof. unfold devres_of. destruct (devres w !! dev); simpl; congruence. Qed.

Lemma unregister_last (l : list trigger_ptr) t :
  ~ In t l -> filter (fun t' => t' <> t) (l ++ [t]) = l.
Proof.
  induction l as [|x l IH]; intros Hfresh.
  - simpl. rewrite filter_cons_False by (intros H; apply H; reflexivity). reflexivity.
  - simpl. rewrite filter_cons_True by (intros ->; apply Hfresh; left; reflexivity).
    f_equal. apply IH. intros Hin. apply Hfresh. right. exact Hin.
Qed.

(** The trigger a probe has just added is the one the registry finds for
    the provider, when the provider had none before. *)
Lemma find_by_parent_snoc ts l parent new :
  trig_parent new = Some parent ->
  find_by_parent ts l parent = None ->
  find_by_parent (ts ++ [new]) (l ++ [List.length ts]) parent = Some (List.length ts).
Proof.
  intros Hnew. induction l as [|t l IH]; cbn [find_by_parent app].
  - intros _. rewrite lookup_snoc_new.
    destruct (decide (trig_parent new = Some parent)); [reflexivity|contradiction].
  - destruct (ts !! t) as [tr|] eqn:Ht.
    + rewrite (lookup_app_l_Some _ _ _ _ Ht).
      destruct (decide (trig_parent tr = Some parent)); [discriminate|exact IH].
    + intros Hnone. apply lookup_ge_None in Ht.
      destruct (decide (t = List.length ts)) as [->|Hne].
      * rewrite lookup_snoc_new.
        destruct (decide (trig_parent new = Some parent)); [reflexivity|contradiction].
      * rewrite (proj2 (lookup_ge_None (ts ++ [new]) t))
          by (rewrite length_app; simpl; lia).
        exact (IH Hnone).
Qed.

(** X11. A provider that had no managed actions is torn down after its
    probe, however the probe ended.  The teardown runs to completion and
    undoes what the probe registered: the trigger list is what it was before
    the probe, no managed action of the provider is left, and a PWM that
    was stopped before the probe is stopped again.  After a successful
    probe the teardown is what disables the PWM. *)
Theorem probe_then_teardown_restores env pdev w r w1 :
  axi_offload_pwm_trigger_probe env pdev w = Some (r, w1) ->
  devres_of w pdev = [] ->
  ~ In (List.length (triggers w)) (iio_trigger_list w) ->
  exists w2,
    devres_release_all pdev w1 = Some (tt, w2)
    /\ iio_trigger_list w2 = iio_trigger_list w
    /\ devres_of w2 pdev = []
    /\ (forall pwm p,
          pwm_of env pdev = Ok pwm ->
          pwms w !! pwm = Some p ->
          pwm_enabled p = false ->
          exists p2, pwms w2 !! pwm = Some p2 /\ pwm_enabled p2 = false)
    /\ (r = 0 ->
        exists pwm, pwm_of env pdev = Ok pwm
                    /\ calls w2 = calls w1 ++ [call_pwm_disable pwm]).
Proof.
  intros Hprobe Hfresh Hnew.
  assert (Hnone : forall w0, devres w0 = devres w ->
            devres_release_all pdev w0 = Some (tt, set_devres (delete pdev) w0)).
  { intros w0 Hw0. unfold devres_release_all. kwstep. rewrite Hw0.
    unfold devres_of in Hfresh. rewrite Hfresh. reflexivity. }
  destruct (probe_cases _ _ _ _ _ Hprobe)
    as [(Hr & _ & Hpwms & Hdevres & Hlist)
       |(pwm0 & buffer & p0 & Hpwm0 & _ & Hp0 & _ & Hcases)].
  - exists (set_devres (delete pdev) w1). split; [exact (Hnone _ Hdevres)|].
    split; [exact Hlist|]. split; [wstep; rewrite lookup_delete_eq; reflexivity|].
    split; [|contradiction].
    intros pwm p _ Hp Hoff. exists p. split; [wstep; rewrite Hpwms; exact Hp|exact Hoff].
  - destruct Hcases as [(Hr & Hlist & Hdevres & q & Hq & Henabled)
                       |[(Hr & Hlist & Hactions & Hq)|(Hr & Hlist & Hactions & Hq)]].
    + exists (set_devres (delete pdev) w1). split; [exact (Hnone _ Hdevres)|].
      split; [exact Hlist|]. split; [wstep; rewrite lookup_delete_eq; reflexivity|].
      split; [|contradiction].
      intros pwm p Hpwm Hp Hoff. exists q.
      assert (pwm0 = pwm) as -> by congruence.
      assert (p0 = p) as -> by congruence.
      split; [exact Hq|destruct Henabled; congruence].
    + apply devres_of_cons in Hactions. rewrite Hfresh in Hactions.
      unfold devres_release_all. kwstep. rewrite Hactions. kwstep. unfold id.
      cbn [run_actions].
      unfold run_action, axi_offload_pwm_trigger_pwm_disable, pwm_disable.
      kwstep. rewrite Hq. kwstep.
      eexists. split; [reflexivity|]. split; [exact Hlist|].
      split; [wstep; rewrite lookup_delete_eq; reflexivity|].
      split; [|contradiction].
      intros pwm p Hpwm _ _. assert (pwm0 = pwm) as -> by congruence.
      eexists. split; [wstep; apply lookup_insert_eq|reflexivity].
    + apply devres_of_cons in Hactions. rewrite Hfresh in Hactions.
      unfold devres_release_all. kwstep. rewrite Hactions. kwstep. unfold id.
      cbn [run_actions].
      unfold run_action, iio_trigger_unregister, axi_offload_pwm_trigger_pwm_disable,
        pwm_disable.
      kwstep. rewrite Hq. kwstep.
      eexists. split; [reflexivity|].
      split; [wstep; rewrite Hlist; apply unregister_last, Hnew|].
      split; [wstep; rewrite lookup_delete_eq; reflexivity|].
      split.
      * intros pwm p Hpwm _ _. assert (pwm0 = pwm) as -> by congruence.
        eexists. split; [wstep; apply lookup_insert_eq|reflexivity].
      * intros _. exists pwm0. split; [exact Hpwm0|reflexivity].
Qed.

Lemma probe_then_teardown_restores_witness :
  exists w2,
    devres_release_all 3%nat Scenario.w_after_probe = Some (tt, w2)
    /\ iio_trigger_list w2 = iio_trigger_list Scenario.w_boot
    /\ devres_of w2 3%nat = []
    /\ (forall pwm p,
          pwm_of Scenario.env_ok 3%nat = Ok pwm ->
          pwms Scenario.w_boot !! pwm = Some p ->
          pwm_enabled p = false ->
          exists p2, pwms w2 !! pwm = Some p2 /\ pwm_enabled p2 = false)
    /\ (0 = 0 ->
        exists pwm, pwm_of Scenario.env_ok 3%nat = Ok pwm
                    /\ calls w2 = calls Scenario.w_after_probe ++ [call_pwm_disable pwm]).
Proof.
  apply (probe_then_teardown_restores Scenario.env_ok 3%nat Scenario.w_boot 0
           Scenario.w_after_probe).
  - vm_compute. reflexivity.
  - vm_compute. reflexivity.
  - simpl. tauto.
Defined.

(** ** Probe, then discovery *)

(** X12. After a successful probe of a provider that had no trigger
    registered before, a consumer whose "adi,offloads" reference resolves to
    that provider discovers the trigger the probe has just registered: the
    call returns it, with the consumer's reference added to the one the
    allocation holds, when the release action can be registered, and the
    registration's error otherwise, with the reference given back. *)
Theorem probe_then_discovery_finds_new_trigger env pdev dev w w1 offload :
  axi_offload_pwm_trigger_probe env pdev w = Some (0, w1) ->
  find_by_parent (triggers w) (iio_trigger_list w) pdev = None ->
  property_present env dev "adi,offloads" = true ->
  reference_target env (fwnode_of env dev) "adi,offloads" 0 = Ok offload ->
  platform_device_of env offload = PTR pdev ->
  let trig := List.length (triggers w) in
  let status := add_action_status env dev (Action fn_offload_pwm_trigger_release trig) in
  exists w2,
    devm_axi_spi_engine_offload_pwm_trigger_get_optional env dev w1
      = Some (if status =? 0 then PTR trig else ERR_PTR status, w2)
    /\ trigger_refs w1 trig = Some 1%nat
    /\ trigger_refs w2 trig = Some (if status =? 0 then 2%nat else 1%nat)
    /\ iio_trigger_list w2 = iio_trigger_list w ++ [trig].
Proof.
  intros Hprobe Hnone Hpresent Href Hdev trig status.
  destruct (probe_cases _ _ _ _ _ Hprobe)
    as [(Hr & _)|(pwm & buffer & p & _ & _ & _ & Htriggers & Hcases)];
    [contradiction|].
  destruct Hcases as [(Hr & _)|[(Hr & _)|(_ & Hlist & _)]]; try contradiction.
  match type of Htriggers with _ = _ ++ [?new] =>
    assert (Hfound : find_by_parent (triggers w1) (iio_trigger_list w1) pdev = Some trig)
      by (rewrite Htriggers, Hlist; apply find_by_parent_snoc; [reflexivity|exact Hnone]);
    assert (Htr : triggers w1 !! trig = Some new)
      by (rewrite Htriggers; apply lookup_snoc_new)
  end.
  rewrite (get_optional_acquired _ _ _ _ _ _ _ Hpresent Href Hdev Hfound Htr).
  fold status. cbn [trig_ops].
  destruct (decide (ops_axi_offload_pwm_trigger <> ops_axi_offload_pwm_trigger));
    [contradiction|].
  destruct (status =? 0) eqn:Hstatus.
  - eexists. split; [reflexivity|].
    split; [unfold trigger_refs; rewrite Htr; reflexivity|].
    split; [wstep; rewrite (lookup_updated _ _ _ _ Htr); reflexivity|exact Hlist].
  - eexists. split; [reflexivity|].
    split; [unfold trigger_refs; rewrite Htr; reflexivity|].
    split; [wstep; rewrite Htr; reflexivity|exact Hlist].
Qed.

Lemma probe_then_discovery_finds_new_trigger_witness :
  exists w2,
    devm_axi_spi_engine_offload_pwm_trigger_get_optional Scenario.env_ok 9%nat
      Scenario.w_after_probe = Some (PTR 0%nat, w2)
    /\ trigger_refs Scenario.w_after_probe 0%nat = Some 1%nat
    /\ trigger_refs w2 0%nat = Some 2%nat
    /\ iio_trigger_list w2 = [0%nat].
Proof.
  apply (probe_then_discovery_finds_new_trigger Scenario.env_ok 3%nat 9%nat
           Scenario.w_boot Scenario.w_after_probe 7%nat);
    vm_compute; reflexivity.
Defined.

(** ** Reading the rate attribute and writing it back *)

Lemma pretty_N_go_app x : forall s t,
  (pretty_N_go x s ++ t)%string = pretty_N_go x (s ++ t)%string.
Proof.
  induction x as [x IH] using (well_founded_induction N.lt_wf_0). intros s t.
  destruct (decide (x = 0)%N) as [->|Hx]; [rewrite !pretty_N_go_0; reflexivity|].
  rewrite (pretty_N_go_step x s), (pretty_N_go_step x (s ++ t)) by lia.
  rewrite IH by (apply N.div_lt; lia). reflexivity.
Qed.

Lemma pretty_N_char_digit d :
  (d < 10)%N ->
  Kstrtox.is_digit (pretty_N_char d) = true
  /\ Kstrtox.digit_val (pretty_N_char d) = Z.of_N d.
Proof.
  intros Hd.
  assert (H : (d = 0 \/ d = 1 \/ d = 2 \/ d = 3 \/ d = 4 \/ d = 5 \/ d = 6 \/ d = 7
               \/ d = 8 \/ d = 9)%N) by lia.
  repeat (destruct H as [->|H]); try subst d; split; reflexivity.
Qed.

(** The digit loop reads the digits that [%u] has written. *)
Lemma parse_integer_pretty_N_go x : forall s acc n,
  exists k,
    Kstrtox.parse_integer (pretty_N_go x s) acc n
      = Kstrtox.parse_integer s (acc * 10 ^ Z.of_nat k + Z.of_N x) (n + k)
    /\ ((0 < x)%N -> (0 < k)%nat).
Proof.
  induction x as [x IH] using (well_founded_induction N.lt_wf_0). intros s acc n.
  destruct (decide (x = 0)%N) as [->|Hx].
  - exists 0%nat. rewrite pretty_N_go_0. split; [|lia].
    f_equal; lia.
  - rewrite pretty_N_go_step by lia.
    destruct (IH (x `div` 10)%N ltac:(apply N.div_lt; lia)
                (String (pretty_N_char (x `mod` 10)) s) acc n) as (k & Hparse & _).
    exists (S k). split; [|lia]. rewrite Hparse. cbn [Kstrtox.parse_integer].
    destruct (pretty_N_char_digit (x `mod` 10)%N ltac:(apply N.mod_lt; lia))
      as [-> ->].
    f_equal; [|lia].
    rewrite Nat2Z.inj_succ, Z.pow_succ_r by lia.
    rewrite (N.div_mod x 10) at 3 by lia.
    rewrite N2Z.inj_add, N2Z.inj_mul. change (Z.of_N 10) with 10. ring.
Qed.

Lemma pretty_N_go_head x : forall s,
  (0 < x)%N ->
  exists c rest, pretty_N_go x s = String c rest /\ Kstrtox.is_digit c = true.
Proof.
  induction x as [x IH] using (well_founded_induction N.lt_wf_0). intros s Hx.
  rewrite pretty_N_go_step by exact Hx.
  destruct (decide (x `div` 10 = 0)%N) as [Hq|Hq].
  - rewrite Hq, pretty_N_go_0. eexists _, _. split; [reflexivity|].
    apply pretty_N_char_digit, N.mod_lt. lia.
  - apply IH; [apply N.div_lt; lia|apply N.neq_0_lt_0, Hq].
Qed.

Lemma skip_plus_digit c rest :
  Kstrtox.is_digit c = true ->
  Kstrtox.skip_plus (String c rest) = String c rest.
Proof.
  intros Hc. destruct (ascii_dec c "+"%char) as [->|Hne]; [discriminate Hc|].
  unfold Kstrtox.skip_plus.
  destruct c as [[] [] [] [] [] [] [] []]; try reflexivity. contradiction.
Qed.

(** What [sysfs_emit (buf, "%u\n", rate)] writes is a payload that
    [kstrtou32] accepts, and it parses to [rate]. *)
Lemma kstrtou32_pretty r :
  0 <= r < 2 ^ 32 ->
  Kstrtox.kstrtou32 (pretty r ++ String Kstrtox.newline EmptyString)%string = inr r.
Proof.
  intros Hr. destruct r as [|q|q]; [reflexivity| |lia].
  unfold pretty, pretty_Z, pretty, pretty_positive, pretty, pretty_N.
  destruct (decide (N.pos q = 0%N)) as [Hq|_]; [discriminate Hq|].
  rewrite pretty_N_go_app.
  change (EmptyString ++ String Kstrtox.newline EmptyString)%string
    with (String Kstrtox.newline EmptyString).
  unfold Kstrtox.kstrtou32, Kstrtox.kstrtoull.
  destruct (pretty_N_go_head (N.pos q) (String Kstrtox.newline EmptyString)
              ltac:(lia)) as (c & rest & Hhead & Hc).
  rewrite Hhead, (skip_plus_digit _ _ Hc), <- Hhead.
  destruct (parse_integer_pretty_N_go (N.pos q) (String Kstrtox.newline EmptyString) 0 0)
    as (k & Hparse & Hk).
  rewrite Hparse.
  change (Kstrtox.parse_integer (String Kstrtox.newline EmptyString)
            (0 * 10 ^ Z.of_nat k + Z.of_N (N.pos q)) (0 + k))
    with (0 * 10 ^ Z.of_nat k + Z.of_N (N.pos q), (0 + k)%nat,
          String Kstrtox.newline EmptyString).
  cbv beta iota. rewrite Z.mul_0_l, Z.add_0_l. change (Z.of_N (N.pos q)) with (Z.pos q).
  destruct (2 ^ 64 <=? Z.pos q) eqn:Hbig; [apply Z.leb_le in Hbig; lia|].
  destruct (Nat.eqb (0 + k) 0) eqn:Hzero; [apply Nat.eqb_eq in Hzero; lia|].
  change (Kstrtox.skip_newline (String Kstrtox.newline EmptyString)) with EmptyString.
  cbv iota. rewrite (u32_id (Z.pos q)) by (unfold Int.is_u32; lia).
  rewrite Z.eqb_refl. reflexivity.
Qed.

(** X13. The text a read of [sampling_frequency] emits is a payload a
    write accepts as a number, and it parses to the rate that was read.
    Writing that text back asks the PWM for the period of that rate with
    one [pwm_config] call, unless the rate read is [0]: this is the case
    when the PWM's period is [0] or longer than 2 * 10^9 ns, and then the
    write of the text just read fails with [-EINVAL] and changes nothing. *)
Theorem sampling_frequency_show_then_store env trig tr st p w :
  triggers w !! trig = Some tr ->
  trig_drvdata tr = drvdata_axi st ->
  pwms w !! st_pwm st = Some p ->
  Int.is_u64 (pwm_period p) ->
  exists r text,
    let len := Z.of_nat (String.length text) in
    let period_ns := DIV_ROUND_UP NSEC_PER_SEC r in
    let status := pwm_apply_status env (st_pwm st) 10 period_ns in
    axi_spi_engine_offload_pwm_trigger_get_rate trig w = Some (r, w)
    /\ sampling_frequency_show trig w = Some ((len, text), w)
    /\ Kstrtox.kstrtou32 text = inr r
    /\ (r = 0 <-> pwm_period p = 0 \/ 2 * 10 ^ 9 < pwm_period p)
    /\ (r = 0 -> sampling_frequency_store env trig text len w = Some (- EINVAL, w))
    /\ (r <> 0 ->
        exists w',
          sampling_frequency_store env trig text len w
            = Some (if status =? 0 then len else status, w')
          /\ calls w' = calls w ++ [call_pwm_config (st_pwm st) 10 period_ns]).
Proof.
  intros Htr Hst Hp Hrange.
  pose proof (get_rate_run w trig tr st p Htr Hst Hp Hrange) as Hrate.
  set (r := if pwm_period p =? 0 then 0
            else DIV_ROUND_CLOSEST_ULL NSEC_PER_SEC (pwm_period p)) in *.
  assert (Hr : 0 <= r < 2 ^ 32
               /\ (r = 0 <-> pwm_period p = 0 \/ 2 * 10 ^ 9 < pwm_period p)).
  { subst r. destruct (pwm_period p =? 0) eqn:Hzero.
    - apply Z.eqb_eq in Hzero. split; [lia|]. split; [intros _; left; exact Hzero|
                                                       reflexivity].
    - apply Z.eqb_neq in Hzero. unfold Int.is_u64 in Hrange.
      pose proof (DIV_ROUND_CLOSEST_ULL_u32 (pwm_period p) ltac:(lia)) as Hu32.
      pose proof (DIV_ROUND_CLOSEST_ULL_round NSEC_PER_SEC (pwm_period p)
                    ltac:(unfold NSEC_PER_SEC; lia) ltac:(lia)) as Hround.
      cbv zeta in Hround. unfold Int.is_u32, NSEC_PER_SEC in *.
      split; [lia|]. split; [intros Hnull; right; nia|intros [Hnull|Hlong]; nia]. }
  destruct Hr as [Hu32 Hnull].
  pose proof (kstrtou32_pretty r Hu32) as Hparse.
  exists r, (pretty r ++ String Kstrtox.newline EmptyString)%string.
  cbv zeta.
  split; [exact Hrate|].
  split; [unfold sampling_frequency_show; kstep; rewrite Hrate; reflexivity|].
  split; [exact Hparse|]. split; [exact Hnull|].
  unfold sampling_frequency_store, iio_trigger_get_drvdata.
  kwstep. rewrite Htr. kwstep. rewrite Hparse, Hst.
  split.
  - intros ->. unfold axi_spi_engine_offload_set_samp_freq. kwstep. reflexivity.
  - intros Hne.
    pose proof (set_samp_freq_run env st p w r ltac:(lia) Hp) as Hrun.
    cbv zeta in Hrun. rewrite Hrun. kwstep.
    destruct (pwm_apply_status env (st_pwm st) 10 (DIV_ROUND_UP NSEC_PER_SEC r) =? 0)
      eqn:Hstatus; kwstep; eexists; split; reflexivity.
Qed.

Lemma sampling_frequency_show_then_store_witness :
  exists r text,
    let len := Z.of_nat (String.length text) in
    let period_ns := DIV_ROUND_UP NSEC_PER_SEC r in
    let status := pwm_apply_status Scenario.env_ok 0%nat 10 period_ns in
    axi_spi_engine_offload_pwm_trigger_get_rate 0%nat Scenario.w_probed
      = Some (r, Scenario.w_probed)
    /\ sampling_frequency_show 0%nat Scenario.w_probed
       = Some ((len, text), Scenario.w_probed)
    /\ Kstrtox.kstrtou32 text = inr r
    /\ (r = 0 <-> 1000000 = 0 \/ 2 * 10 ^ 9 < 1000000)
    /\ (r = 0 ->
        sampling_frequency_store Scenario.env_ok 0%nat text len Scenario.w_probed
          = Some (- EINVAL, Scenario.w_probed))
    /\ (r <> 0 ->
        exists w',
          sampling_frequency_store Scenario.env_ok 0%nat text len Scenario.w_probed
            = Some (if status =? 0 then len else status, w')
          /\ calls w' = calls Scenario.w_probed ++ [call_pwm_config 0%nat 10 period_ns]).
Proof.
  assert (Hrange : Int.is_u64 1000000) by (unfold Int.is_u64; lia).
  exact (sampling_frequency_show_then_store Scenario.env_ok 0%nat
           {| trig_ops := ops_axi_offload_pwm_trigger; trig_parent := Some 3%nat;
              trig_drvdata := drvdata_axi {| st_buffer := 5; st_pwm := 0 |};
              trig_refs := 1 |}
           {| st_buffer := 5; st_pwm := 0 |}
           {| pwm_period := 1000000; pwm_duty_cycle := 10; pwm_enabled := true |}
           Scenario.w_probed eq_refl eq_refl eq_refl Hrange).
Defined.
